(** * Announcements endpoints of the High School Management System API

    A shallow embedding of [src/backend/routers/announcements.py]: the five
    request handlers, the two collections they talk to and the library calls
    they rely on ([datetime.fromisoformat], [date.isoformat], [bson.ObjectId],
    and the pymongo collection methods [find], [sort], [find_one],
    [insert_one], [update_one] and [delete_one]).

    Documents are Python dicts, modelled as finite maps from field names to
    BSON values.  A handler is a function from the database to a result (a
    value or a raised exception) and the database afterwards. *)

From Stdlib Require Import ZArith Lia Ascii String.
From stdpp Require Import base option list strings gmap sorting.

Local Open Scope Z_scope.

(** ** Byte-wise order on strings

    Python compares [str] by code point and MongoDB compares strings with the
    simple binary collation; both are the lexicographic order of
    [String.compare]. *)

Module StrOrd.

Definition le (a b : string) : Prop := String.leb a b = true.

Lemma ascii_compare_refl (c : ascii) : Ascii.compare c c = Eq.
Proof. unfold Ascii.compare. apply N.compare_refl. Qed.

Lemma compare_refl (s : string) : String.compare s s = Eq.
Proof.
  induction s as [|c s IH]; simpl; [reflexivity|].
  now rewrite ascii_compare_refl.
Qed.

Lemma ascii_compare_lt_trans (a b c : ascii) :
  Ascii.compare a b = Lt → Ascii.compare b c = Lt → Ascii.compare a c = Lt.
Proof.
  unfold Ascii.compare. rewrite !N.compare_lt_iff. lia.
Qed.

Lemma compare_lt_trans (s1 s2 s3 : string) :
  String.compare s1 s2 = Lt → String.compare s2 s3 = Lt →
  String.compare s1 s3 = Lt.
Proof.
  revert s2 s3. induction s1 as [|a s1 IH]; intros [|b s2] [|c s3];
    simpl; try congruence.
  destruct (Ascii.compare a b) eqn:Hab; try congruence;
    destruct (Ascii.compare b c) eqn:Hbc; try congruence; intros H12 H23.
  - apply Ascii.compare_eq_iff in Hab, Hbc. subst.
    rewrite ascii_compare_refl. eauto.
  - apply Ascii.compare_eq_iff in Hab. subst. now rewrite Hbc.
  - apply Ascii.compare_eq_iff in Hbc. subst. now rewrite Hab.
  - now rewrite (ascii_compare_lt_trans a b c).
Qed.

Lemma le_cases (a b : string) :
  le a b ↔ String.compare a b = Lt ∨ a = b.
Proof.
  unfold le, String.leb. split.
  - destruct (String.compare a b) eqn:E; try discriminate; intros _.
    + right. now apply String.compare_eq_iff.
    + now left.
  - intros [->| ->]; [reflexivity|]. now rewrite compare_refl.
Qed.

#[global] Instance le_refl : Reflexive le.
Proof. intros s. apply le_cases. now right. Qed.

#[global] Instance le_trans : Transitive le.
Proof.
  intros a b c [Hab| ->]%le_cases [Hbc| ->]%le_cases; apply le_cases; eauto.
  left. eapply compare_lt_trans; eauto.
Qed.

#[global] Instance le_total : Total le.
Proof. intros a b. apply String.leb_total. Qed.

#[global] Instance le_dec (a b : string) : Decision (le a b).
Proof. unfold le. apply _. Defined.

End StrOrd.

(** ** BSON values and documents *)

(** [bson.ObjectId]: twelve bytes, kept here as the 24 lower-case hexadecimal
    digits that [str] prints and that [ObjectId(s)] reads back. *)
Record ObjectId := mkObjectId { binary : string }.

#[export] Instance ObjectId_eq_dec : EqDecision ObjectId.
Proof. solve_decision. Defined.

(** The values the handlers store in a document: [None], a [str], or the
    [ObjectId] the store puts under ["_id"]. *)
Inductive value :=
  | VNull
  | VStr (s : string)
  | VObjectId (o : ObjectId).

#[export] Instance value_eq_dec : EqDecision value.
Proof. solve_decision. Defined.

(** A document is a Python [dict] with string keys. *)
Abbreviation document := (gmap string value).

(** Python's [str(x)] on the three kinds of value. *)
Definition py_str (v : value) : string :=
  match v with
  | VNull => "None"
  | VStr s => s
  | VObjectId o => binary o
  end.

(** *** ObjectId(s) *)

Definition is_hex_digit (c : ascii) : bool :=
  let n := N_of_ascii c in
  ((48 <=? n) && (n <=? 57) || (65 <=? n) && (n <=? 70)
   || (97 <=? n) && (n <=? 102))%N.

Definition ascii_lower (c : ascii) : ascii :=
  let n := N_of_ascii c in
  if ((65 <=? n) && (n <=? 90))%N then ascii_of_N (n + 32) else c.

Fixpoint str_lower (s : string) : string :=
  match s with
  | EmptyString => EmptyString
  | String c s' => String (ascii_lower c) (str_lower s')
  end.

Fixpoint str_forallb (p : ascii → bool) (s : string) : bool :=
  match s with
  | EmptyString => true
  | String c s' => p c && str_forallb p s'
  end.

(** [ObjectId(oid)] for a [str] argument: a string of exactly 24 hexadecimal
    digits denotes an id, every other string raises [InvalidId] ([None]
    here). *)
Definition ObjectId_of_str (oid : string) : option ObjectId :=
  if (String.length oid =? 24)%nat && str_forallb is_hex_digit oid
  then Some (mkObjectId (str_lower oid))
  else None.

(** ** Calendar dates and [datetime] *)

Record date := mkDate { year : Z; month : Z; day : Z }.

Record datetime := mkDatetime {
  dt_date : date;
  hour : Z; minute : Z; second : Z; microsecond : Z
}.

#[export] Instance date_eq_dec : EqDecision date.
Proof. solve_decision. Defined.

#[export] Instance datetime_eq_dec : EqDecision datetime.
Proof. solve_decision. Defined.

(** [d1 > d2], [d1 <= d2] on [datetime.date]: the order of the triples
    (year, month, day). *)
Definition date_compare (a b : date) : comparison :=
  match year a ?= year b with
  | Eq => match month a ?= month b with
          | Eq => day a ?= day b
          | c => c
          end
  | c => c
  end.

Definition date_gtb (a b : date) : bool :=
  match date_compare a b with Gt => true | _ => false end.

Definition date_le (a b : date) : Prop := date_compare a b ≠ Gt.

Definition is_leap (y : Z) : bool :=
  (y mod 4 =? 0) && (negb (y mod 100 =? 0) || (y mod 400 =? 0)).

Definition days_in_month (y m : Z) : Z :=
  if m =? 2 then (if is_leap y then 29 else 28)
  else if (m =? 4) || (m =? 6) || (m =? 9) || (m =? 11) then 30
  else 31.

(** The range checks of the [date] and [datetime] constructors
    ([MINYEAR = 1], [MAXYEAR = 9999]). *)
Definition valid_date (d : date) : bool :=
  (1 <=? year d) && (year d <=? 9999) &&
  (1 <=? month d) && (month d <=? 12) &&
  (1 <=? day d) && (day d <=? days_in_month (year d) (month d)).

Definition valid_time (h mi s us : Z) : bool :=
  (0 <=? h) && (h <=? 23) && (0 <=? mi) && (mi <=? 59) &&
  (0 <=? s) && (s <=? 59) && (0 <=? us) && (us <=? 999999).

(** *** Printing: [date.isoformat()] and [datetime.isoformat()] *)

Definition digit_char (n : Z) : ascii := ascii_of_N (Z.to_N (48 + n mod 10)).

(** The [w] low decimal digits of [n], most significant first: ["%0wd"] for
    [0 <= n < 10^w]. *)
Fixpoint pad (w : nat) (n : Z) : string :=
  match w with
  | O => EmptyString
  | S w' => pad w' (n / 10) +:+ String (digit_char n) EmptyString
  end.

Definition date_isoformat (d : date) : string :=
  pad 4 (year d) +:+ "-" +:+ pad 2 (month d) +:+ "-" +:+ pad 2 (day d).

Definition datetime_isoformat (t : datetime) : string :=
  date_isoformat (dt_date t) +:+ "T" +:+ pad 2 (hour t) +:+ ":" +:+
  pad 2 (minute t) +:+ ":" +:+ pad 2 (second t) +:+
  (if microsecond t =? 0 then "" else "." +:+ pad 6 (microsecond t)).

(** *** Parsing: [datetime.fromisoformat]

    CPython 3.11 reads ISO 8601 dates in the forms [YYYY-MM-DD], [YYYYMMDD],
    [YYYY-Www], [YYYYWww], [YYYY-Www-D] and [YYYYWwwD], then, after any one
    separator character, a time [HH[:MM[:SS[.f+]]]] with or without colons
    and with [.] or [,] before the fraction, then [Z] or an offset read like
    a time after [+] or [-].  The definitions follow the parser of the
    interpreter step by step: it walks a buffer of UTF-8 bytes that ends in a
    zero byte, which [byte_at] gives past the end of the string.  A string
    that is not read, or whose fields are out of range, raises [ValueError]
    ([None] here). *)

Definition byte_at (s : string) (i : nat) : N :=
  match String.get i s with
  | Some c => N_of_ascii c
  | None => 0%N
  end.

Definition is_digit (c : N) : bool := ((48 <=? c) && (c <=? 57))%N.

Definition is_char (c : N) (a : ascii) : bool := (c =? N_of_ascii a)%N.

(** [parse_digits]: exactly [num_digits] decimal digits from position [p],
    added to [var]; the result holds the position after them. *)
Fixpoint parse_digits (s : string) (p : nat) (var : Z) (num_digits : nat)
    : option (nat * Z) :=
  match num_digits with
  | O => Some (p, var)
  | S n =>
      let c := byte_at s p in
      if is_digit c
      then parse_digits s (S p) (var * 10 + (Z.of_N c - 48)) n
      else None
  end.

(** The first position from [idx], below [len], that holds no digit; [fuel]
    bounds the walk. *)
Fixpoint skip_digits (s : string) (idx len fuel : nat) : nat :=
  match fuel with
  | O => idx
  | S fuel' =>
      if (idx <? len)%nat && is_digit (byte_at s idx)
      then skip_digits s (S idx) len fuel'
      else idx
  end.

(** [_find_isoformat_datetime_separator]: where the date ends, told from the
    characters at 4, 5, 8 and 10 ([None] is the error result). *)
Definition find_isoformat_datetime_separator (dtstr : string) (len : nat)
    : option nat :=
  if (len =? 7)%nat then Some 7%nat
  else if is_char (byte_at dtstr 4) "-" then
    if is_char (byte_at dtstr 5) "W" then
      if (len <? 8)%nat then None
      else if (8 <? len)%nat && is_char (byte_at dtstr 8) "-" then
        if (len =? 9)%nat then None
        else if (10 <? len)%nat && is_digit (byte_at dtstr 10)
        then Some 8%nat
        else Some 10%nat
      else Some 8%nat
    else Some 10%nat
  else if is_char (byte_at dtstr 4) "W" then
    let idx := skip_digits dtstr 7 len len in
    if (idx <? 9)%nat then Some idx
    else if Nat.even idx then Some 7%nat
    else Some 8%nat
  else Some 8%nat.

(** Days before 1 January of [y], and before the first of month [m]. *)
Definition days_before_year (y : Z) : Z :=
  let y := y - 1 in y * 365 + y / 4 - y / 100 + y / 400.

Definition days_before_month (y m : Z) : Z :=
  nth (Z.to_nat m) [0; 0; 31; 59; 90; 120; 151; 181; 212; 243; 273; 304; 334] 0
  + (if (2 <? m) && is_leap y then 1 else 0).

Definition ymd_to_ord (y m d : Z) : Z :=
  days_before_year y + days_before_month y m + d.

(** [ord_to_ymd]: the date of a day number, 1 January of year 1 being 1. *)
Definition ord_to_ymd (ordinal : Z) : date :=
  let n := ordinal - 1 in
  let n400 := n / 146097 in
  let n := n mod 146097 in
  let n100 := n / 36524 in
  let n := n mod 36524 in
  let n4 := n / 1461 in
  let n := n mod 1461 in
  let n1 := n / 365 in
  let n := n mod 365 in
  let y := n400 * 400 + 1 + n100 * 100 + n4 * 4 + n1 in
  if (n1 =? 4) || (n100 =? 4) then mkDate (y - 1) 12 31
  else
    let leapyear := (n1 =? 3) && (negb (n4 =? 24) || (n100 =? 3)) in
    let m := Z.shiftr (n + 50) 5 in
    let preceding :=
      nth (Z.to_nat m)
        [0; 0; 31; 59; 90; 120; 151; 181; 212; 243; 273; 304; 334] 0
      + (if (2 <? m) && leapyear then 1 else 0) in
    if n <? preceding then
      let m := m - 1 in
      let preceding :=
        preceding
        - (nth (Z.to_nat m) [0; 31; 28; 31; 30; 31; 30; 31; 31; 30; 31; 30; 31] 0
           + (if (m =? 2) && leapyear then 1 else 0)) in
      mkDate y m (n - preceding + 1)
    else mkDate y m (n - preceding + 1).

(** Day of the week of a date, Monday being 0. *)
Definition weekday (y m d : Z) : Z := (ymd_to_ord y m d + 6) mod 7.

(** Day number of the Monday that starts ISO week 1 of [y]. *)
Definition iso_week1_monday (y : Z) : Z :=
  let first_day := ymd_to_ord y 1 1 in
  let first_weekday := (first_day + 6) mod 7 in
  let week1_monday := first_day - first_weekday in
  if 3 <? first_weekday then week1_monday + 7 else week1_monday.

(** [iso_to_ymd]: the date of day [iso_day] of week [iso_week] of an ISO
    year; week 53 only exists in years that start on a Thursday, or on a
    Wednesday when leap. *)
Definition iso_to_ymd (iso_year iso_week iso_day : Z) : option date :=
  if negb ((1 <=? iso_year) && (iso_year <=? 9999)) then None
  else if negb ((0 <? iso_week) && (iso_week <? 53)) &&
          negb ((iso_week =? 53) &&
                (let first_weekday := weekday iso_year 1 1 in
                 (first_weekday =? 3) ||
                 ((first_weekday =? 2) && is_leap iso_year)))
  then None
  else if negb ((0 <? iso_day) && (iso_day <? 8)) then None
  else
    let day_1 := iso_week1_monday iso_year in
    let day_offset := (iso_week - 1) * 7 + iso_day - 1 in
    Some (ord_to_ymd (day_1 + day_offset)).

(** [parse_isoformat_date]: the date part, [len] being where it ends. *)
Definition parse_isoformat_date (dtstr : string) (len : nat) : option date :=
  '(p, y) ← parse_digits dtstr 0 0 4;
  let uses_separator := is_char (byte_at dtstr p) "-" in
  let p := if uses_separator then S p else p in
  if is_char (byte_at dtstr p) "W" then
    '(p, iso_week) ← parse_digits dtstr (S p) 0 2;
    iso_day ←
      (if (p <? len)%nat then
         if uses_separator && negb (is_char (byte_at dtstr p) "-") then None
         else
           let p := if uses_separator then S p else p in
           '(_, d) ← parse_digits dtstr p 0 1; Some d
       else Some 1);
    iso_to_ymd y iso_week iso_day
  else
    '(p, m) ← parse_digits dtstr p 0 2;
    if uses_separator && negb (is_char (byte_at dtstr p) "-") then None
    else
      let p := if uses_separator then S p else p in
      '(_, d) ← parse_digits dtstr p 0 2;
      Some (mkDate y m d).

(** The fraction and what follows it: up to six digits are read and scaled
    to microseconds, further digits are skipped; the flag tells whether the
    buffer goes on after them. *)
Definition parse_fraction (tstr : string) (p p_end : nat)
    : option (Z * bool) :=
  let len_remains := (p_end - p)%nat in
  let to_parse := Nat.min len_remains 6 in
  '(p, us) ← parse_digits tstr p 0 to_parse;
  let us := us * 10 ^ Z.of_nat (6 - to_parse) in
  let p := skip_digits tstr p (S (String.length tstr)) (String.length tstr) in
  Some (us, negb (byte_at tstr p =? 0)%N).

(** [parse_hh_mm_ss_ff] between [p] and [p_end]: hour, minute, second,
    microsecond, and whether the buffer goes on after what was read.  The
    loop over the three components is unrolled. *)
Definition parse_hh_mm_ss_ff (tstr : string) (p p_end : nat)
    : option (Z * Z * Z * Z * bool) :=
  '(p, h) ← parse_digits tstr p 0 2;
  let c := byte_at tstr p in
  let p := S p in
  let has_separator := is_char c ":" in
  if (p_end <=? p)%nat then Some (h, 0, 0, 0, negb (c =? 0)%N)
  else if is_char c "." || is_char c "," then
    '(us, more) ← parse_fraction tstr p p_end; Some (h, 0, 0, us, more)
  else
    let p := if has_separator then p else pred p in
    '(p, mi) ← parse_digits tstr p 0 2;
    let c := byte_at tstr p in
    let p := S p in
    if (p_end <=? p)%nat then Some (h, mi, 0, 0, negb (c =? 0)%N)
    else if has_separator && is_char c ":" then
      '(p, sec) ← parse_digits tstr p 0 2;
      let c := byte_at tstr p in
      let p := S p in
      if (p_end <=? p)%nat then Some (h, mi, sec, 0, negb (c =? 0)%N)
      else if is_char c ":" then
        '(us, more) ← parse_fraction tstr p p_end; Some (h, mi, sec, us, more)
      else if is_char c "." || is_char c "," then
        '(us, more) ← parse_fraction tstr p p_end; Some (h, mi, sec, us, more)
      else None
    else if is_char c "." || is_char c "," then
      '(us, more) ← parse_fraction tstr p p_end; Some (h, mi, 0, us, more)
    else if negb has_separator then
      let p := pred p in
      '(p, sec) ← parse_digits tstr p 0 2;
      let c := byte_at tstr p in
      let p := S p in
      if (p_end <=? p)%nat then Some (h, mi, sec, 0, negb (c =? 0)%N)
      else if is_char c "." || is_char c "," then
        '(us, more) ← parse_fraction tstr p p_end; Some (h, mi, sec, us, more)
      else
        '(us, more) ← parse_fraction tstr (pred p) p_end;
        Some (h, mi, sec, us, more)
    else None.

(** The first position from [p], below [p_end], that holds [Z], [+] or [-];
    the position after the last one looked at when there is none. *)
Fixpoint find_tzinfo (tstr : string) (p p_end fuel : nat) : nat :=
  let c := byte_at tstr p in
  if is_char c "Z" || is_char c "+" || is_char c "-" then p
  else
    match fuel with
    | O => S p
    | S fuel' =>
        if (S p <? p_end)%nat then find_tzinfo tstr (S p) p_end fuel'
        else S p
    end.

(** [parse_isoformat_time] from [p] to the end of the buffer: the time of
    day; an offset must stay strictly inside 24 hours. *)
Definition parse_isoformat_time (dtstr : string) (p : nat)
    : option (Z * Z * Z * Z) :=
  let p_end := String.length dtstr in
  let tzinfo_pos := find_tzinfo dtstr p p_end p_end in
  '(h, mi, sec, us, more) ← parse_hh_mm_ss_ff dtstr p tzinfo_pos;
  if (tzinfo_pos =? p_end)%nat then
    if (more : bool) then None else Some (h, mi, sec, us)
  else if is_char (byte_at dtstr tzinfo_pos) "Z" then
    if (byte_at dtstr (S tzinfo_pos) =? 0)%N then Some (h, mi, sec, us)
    else None
  else
    '(tzh, tzm, tzs, tzus, more) ← parse_hh_mm_ss_ff dtstr (S tzinfo_pos) p_end;
    if (more : bool) then None
    else if ((tzh * 60 + tzm) * 60 + tzs) * 1000000 + tzus <? 86400 * 1000000
    then Some (h, mi, sec, us)
    else None.

(** The separator between date and time is one character, that is one to
    four bytes of UTF-8, told from its first byte. *)
Definition separator_width (c : N) : nat :=
  if (N.land c 128 =? 0)%N then 1
  else if (N.land c 240 =? 224)%N then 3
  else if (N.land c 240 =? 240)%N then 4
  else 2.

Definition fromisoformat (date_string : string) : option datetime :=
  let len := String.length date_string in
  if (len <? 7)%nat then None
  else
    separator_location ← find_isoformat_datetime_separator date_string len;
    d ← parse_isoformat_date date_string separator_location;
    '(h, mi, sec, us) ←
      (if (separator_location <? len)%nat then
         parse_isoformat_time date_string
           (separator_location
            + separator_width (byte_at date_string separator_location))
       else Some (0, 0, 0, 0));
    if valid_date d && valid_time h mi sec us
    then Some (mkDatetime d h mi sec us) else None.

(** [datetime.fromisoformat(s).date()] *)
Definition parse_date (s : string) : option date :=
  dt_date <$> fromisoformat s.

(** ** The document store

    What the handlers use of a pymongo collection.  A collection is the list
    of its documents in insertion order. *)

Module Mongo.

(** The order of BSON values that [sort] and the comparison operators use:
    values of different kinds are ordered by kind (null, then strings, then
    ObjectIds), and a missing field sorts as null. *)
Definition kind (v : option value) : Z :=
  match v with
  | None | Some VNull => 0
  | Some (VStr _) => 1
  | Some (VObjectId _) => 2
  end.

Definition payload (v : option value) : string :=
  match v with
  | None | Some VNull => ""
  | Some (VStr s) => s
  | Some (VObjectId o) => binary o
  end.

Definition le (a b : option value) : Prop :=
  kind a < kind b ∨ (kind a = kind b ∧ StrOrd.le (payload a) (payload b)).

#[global] Instance le_dec (a b : option value) : Decision (le a b).
Proof. unfold le. apply _. Defined.

(** Conditions on one field, as written in a filter document. *)
Inductive condition :=
  | Eq_ (v : value)            (* {"f": v} *)
  | Exists_ (b : bool)         (* {"f": {"$exists": b}} *)
  | Lte_ (v : value)           (* {"f": {"$lte": v}} *)
  | Gte_ (v : value).          (* {"f": {"$gte": v}} *)

(** Filter documents: a dict is the conjunction of its entries. *)
#[local] Unset Elimination Schemes.
Inductive filter_doc :=
  | Field (k : string) (c : condition)
  | Or_ (qs : list filter_doc)     (* {"$or": [...]} *)
  | All_ (qs : list filter_doc).   (* {e1, e2, ...}; [All_ []] is [{}] *)
#[local] Set Elimination Schemes.

(** [$lte] and [$gte] only match a field whose value has the kind of the
    operand (a null or absent field never matches a string operand). *)
Definition holds (c : condition) (field : option value) : bool :=
  match c with
  | Eq_ v => bool_decide (field = Some v ∨ (v = VNull ∧ field = None))
  | Exists_ b => bool_decide (is_Some field ↔ b = true)
  | Lte_ v =>
      bool_decide (is_Some field ∧ kind field = kind (Some v) ∧
                   StrOrd.le (payload field) (payload (Some v)))
  | Gte_ v =>
      bool_decide (is_Some field ∧ kind field = kind (Some v) ∧
                   StrOrd.le (payload (Some v)) (payload field))
  end.

Fixpoint matches (q : filter_doc) (d : document) : bool :=
  match q with
  | Field k c => holds c (d !! k)
  | Or_ qs => existsb (λ q', matches q' d) qs
  | All_ qs => forallb (λ q', matches q' d) qs
  end.

(** [collection.find(q)] *)
Definition find (q : filter_doc) (coll : list document) : list document :=
  List.filter (matches q) coll.

(** [cursor.sort(key, -1)]: descending in the order of BSON values. *)
Definition descending (key : string) (a b : document) : Prop :=
  le (b !! key) (a !! key).

#[global] Instance descending_dec key a b : Decision (descending key a b).
Proof. unfold descending. apply _. Defined.

Definition sort_desc (key : string) (cursor : list document) : list document :=
  merge_sort (descending key) cursor.

(** [collection.find_one(q)]: the first match. *)
Definition find_one (q : filter_doc) (coll : list document) : option document :=
  List.find (matches q) coll.

(** [collection.insert_one(doc)]: the driver puts a new [ObjectId] under
    ["_id"]; the unique index on ["_id"] refuses a key that is already
    there ([None] is [DuplicateKeyError]). *)
Definition insert_one (inserted_id : ObjectId) (doc : document)
    (coll : list document) : option (list document) :=
  match find_one (Field "_id" (Eq_ (VObjectId inserted_id))) coll with
  | Some _ => None
  | None => Some (coll ++ [<["_id" := VObjectId inserted_id]> doc])
  end.

(** [collection.update_one(q, {"$set": upd})]: the fields of [upd] replace
    those of the first match, whose other fields stay; the result holds
    [matched_count]. *)
Fixpoint update_one (q : filter_doc) (upd : document) (coll : list document)
    : nat * list document :=
  match coll with
  | [] => (0%nat, [])
  | d :: coll' =>
      if matches q d then (1%nat, (upd ∪ d) :: coll')
      else let '(n, r) := update_one q upd coll' in (n, d :: r)
  end.

(** [collection.delete_one(q)]: removes the first match; the result holds
    [deleted_count]. *)
Fixpoint delete_one (q : filter_doc) (coll : list document)
    : nat * list document :=
  match coll with
  | [] => (0%nat, [])
  | d :: coll' =>
      if matches q d then (1%nat, coll')
      else let '(n, r) := delete_one q coll' in (n, d :: r)
  end.

End Mongo.

(** ** Exceptions, results and handlers *)

Inductive exn :=
  | HTTPException (status_code : Z) (detail : string)
  | DuplicateKeyError
  | KeyError (key : string)
  | TypeError.

Inductive result (A : Type) :=
  | Return (a : A)
  | Raise (e : exn).
Arguments Return {A} a.
Arguments Raise {A} e.

(** Modelled from the spec: the module [..database], which creates the two
    collections the handlers import, is not among the sources.  §6 gives a
    document store with two logical collections, [announcements] (documents
    as in §3) and [teachers] (keyed by username, looked up for presence
    only); the handlers reach them through the pymongo calls of [Mongo]. *)
Record database := mkDatabase {
  announcements_collection : list document;
  teachers_collection : list document
}.

(** A handler runs on a database and leaves a result and a database. *)
Definition handler (A : Type) : Type := database → result A * database.

#[export] Instance handler_ret : MRet handler :=
  λ A a db, (Return a, db).

#[export] Instance handler_bind : MBind handler :=
  λ A B k m db,
    match m db with
    | (Return a, db') => k a db'
    | (Raise e, db') => (Raise e, db')
    end.

Definition raise {A} (e : exn) : handler A := λ db, (Raise e, db).

Definition announcements : handler (list document) :=
  λ db, (Return (announcements_collection db), db).

Definition teachers : handler (list document) :=
  λ db, (Return (teachers_collection db), db).

Definition set_announcements (coll : list document) : handler unit :=
  λ db, (Return tt, mkDatabase coll (teachers_collection db)).

(** ** Python values *)

(** An optional [str] argument as a stored value: [None] is null. *)
Definition to_value (s : option string) : value :=
  match s with
  | None => VNull
  | Some s' => VStr s'
  end.

(** [if s:] on an optional [str]: [None] and [""] are false. *)
Definition truthy (s : option string) : bool :=
  match s with
  | None => false
  | Some s' => negb (String.eqb s' "")
  end.

(** [if not d:] on the result of [find_one]: [None] and [{}] are false. *)
Definition truthy_doc (d : option document) : bool :=
  match d with
  | None => false
  | Some d' => negb (bool_decide (d' = ∅))
  end.

(** [doc["_id"] = str(doc["_id"])] *)
Definition stringify_id (doc : document) : handler document :=
  match doc !! "_id" with
  | Some v => mret (<["_id" := VStr (py_str v)]> doc)
  | None => raise (KeyError "_id")
  end.

(** The loop [for announcement in announcements: ...; result.append(...)]. *)
Fixpoint stringify_ids (cursor : list document) : handler (list document) :=
  match cursor with
  | [] => mret []
  | announcement :: rest =>
      a ← stringify_id announcement;
      result ← stringify_ids rest;
      mret (a :: result)
  end.

(** ** The handlers *)

(** Lines 43-49, 70-76, 115-121 and 168-174: the caller must be given and
    must be the ["_id"] of a teacher. *)
Definition authenticate (username : option string) : handler unit :=
  if negb (truthy username) then
    raise (HTTPException 401 "Authentication required")
  else
    coll ← teachers;
    let teacher := Mongo.find_one
                     (Mongo.Field "_id" (Mongo.Eq_ (to_value username))) coll in
    if negb (truthy_doc teacher) then
      raise (HTTPException 401 "Invalid user")
    else mret tt.

(** Lines 78-89 and 123-134: [ValueError] from either [fromisoformat] becomes
    a 400; the 400 raised inside the [try] is not a [ValueError] and passes
    through. *)
Definition validate_dates (expiration_date : string)
    (start_date : option string) : handler unit :=
  match parse_date expiration_date with
  | None => raise (HTTPException 400 "Invalid date format")
  | Some exp_date =>
      if truthy start_date then
        match parse_date (py_str (to_value start_date)) with
        | None => raise (HTTPException 400 "Invalid date format")
        | Some st_date =>
            if date_gtb st_date exp_date then
              raise (HTTPException 400
                       "Start date must be before expiration date")
            else mret tt
        end
      else mret tt
  end.

(** Lines 92-98: the dict that create inserts. *)
Definition new_announcement (utcnow : datetime)
    (message expiration_date : string) (username : option string)
    (start_date : option string) : document :=
  {[ "message" := VStr message;
     "start_date" := to_value start_date;
     "expiration_date" := VStr expiration_date;
     "created_by" := to_value username;
     "created_at" := VStr (datetime_isoformat utcnow) ]}.

(** Lines 142-148: the fields that update sets. *)
Definition new_update_data (utcnow : datetime)
    (message expiration_date : string) (username : option string)
    (start_date : option string) : document :=
  {[ "message" := VStr message;
     "start_date" := to_value start_date;
     "expiration_date" := VStr expiration_date;
     "updated_by" := to_value username;
     "updated_at" := VStr (datetime_isoformat utcnow) ]}.

(** The filter [{"_id": obj_id}]. *)
Definition by_id (obj_id : ObjectId) : Mongo.filter_doc :=
  Mongo.Field "_id" (Mongo.Eq_ (VObjectId obj_id)).

(** The filter of lines 24-30. *)
Definition active_on (today : string) : Mongo.filter_doc :=
  Mongo.All_
    [Mongo.Or_
       [Mongo.Field "start_date" (Mongo.Exists_ false);
        Mongo.Field "start_date" (Mongo.Lte_ (VStr today))];
     Mongo.Field "expiration_date" (Mongo.Gte_ (VStr today))].

(** [GET /announcements/active]; [today] is [date.today()]. *)
Definition get_active_announcements (today : date)
    : handler (list document) :=
  let today := date_isoformat today in
  coll ← announcements;
  let announcements :=
    Mongo.sort_desc "created_at" (Mongo.find (active_on today) coll) in
  stringify_ids announcements.

(** [GET /announcements] *)
Definition get_all_announcements (username : option string)
    : handler (list document) :=
  authenticate username;;
  coll ← announcements;
  let announcements :=
    Mongo.sort_desc "created_at" (Mongo.find (Mongo.All_ []) coll) in
  stringify_ids announcements.

(** [POST /announcements]; [utcnow] is [datetime.utcnow()] and [inserted_id]
    the id the driver generates. *)
Definition create_announcement (utcnow : datetime) (inserted_id : ObjectId)
    (message expiration_date : string) (username : option string)
    (start_date : option string) : handler document :=
  authenticate username;;
  validate_dates expiration_date start_date;;
  let announcement :=
    new_announcement utcnow message expiration_date username start_date in
  coll ← announcements;
  match Mongo.insert_one inserted_id announcement coll with
  | None => raise DuplicateKeyError
  | Some coll' =>
      set_announcements coll';;
      mret (<["_id" := VStr (py_str (VObjectId inserted_id))]> announcement)
  end.

(** [PUT /announcements/{announcement_id}] *)
Definition update_announcement (utcnow : datetime)
    (announcement_id message expiration_date : string)
    (username : option string) (start_date : option string)
    : handler document :=
  authenticate username;;
  validate_dates expiration_date start_date;;
  match ObjectId_of_str announcement_id with
  | None => raise (HTTPException 400 "Invalid announcement ID")
  | Some obj_id =>
      let update_data :=
        new_update_data utcnow message expiration_date username start_date in
      coll ← announcements;
      let '(matched_count, coll') :=
        Mongo.update_one (by_id obj_id) update_data coll in
      set_announcements coll';;
      if (matched_count =? 0)%nat then
        raise (HTTPException 404 "Announcement not found")
      else
        coll ← announcements;
        match Mongo.find_one (by_id obj_id) coll with
        | None => raise TypeError
        | Some announcement => stringify_id announcement
        end
  end.

(** [DELETE /announcements/{announcement_id}] *)
Definition delete_announcement (announcement_id : string)
    (username : option string) : handler document :=
  authenticate username;;
  match ObjectId_of_str announcement_id with
  | None => raise (HTTPException 400 "Invalid announcement ID")
  | Some obj_id =>
      coll ← announcements;
      let '(deleted_count, coll') := Mongo.delete_one (by_id obj_id) coll in
      set_announcements coll';;
      if (deleted_count =? 0)%nat then
        raise (HTTPException 404 "Announcement not found")
      else
        mret ({[ "message" := VStr "Announcement deleted successfully" ]}
              : document)
  end.

(** ** Vocabulary of the specification *)

(** The caller is given, is not empty, and is the ["_id"] of a teacher. *)
Definition known_user (db : database) (username : option string) : bool :=
  match username with
  | None => false
  | Some u =>
      negb (String.eqb u "") &&
      existsb (λ t : document, bool_decide (t !! "_id" = Some (VStr u)))
        (teachers_collection db)
  end.

(** The dates pass validation: the expiration date denotes a calendar day,
    and a start date that is given and not empty denotes a day that is not
    after it. *)
Definition dates_ok (expiration_date : string) (start_date : option string)
    : bool :=
  match parse_date expiration_date with
  | None => false
  | Some exp_date =>
      match start_date with
      | None => true
      | Some s =>
          String.eqb s "" ||
          match parse_date s with
          | None => false
          | Some st_date => negb (date_gtb st_date exp_date)
          end
      end
  end.

(** The calendar day a field of a record denotes, if any. *)
Definition field_date (d : document) (key : string) : option date :=
  match d !! key with
  | Some (VStr s) => parse_date s
  | _ => None
  end.

(** §3: if a start date is present, start date ≤ expiration date. *)
Definition start_le_expiration (d : document) : Prop :=
  ∀ st, field_date d "start_date" = Some st →
    ∃ e, field_date d "expiration_date" = Some e ∧ date_le st e.

(** The identifier field of a response record is a string. *)
Definition id_is_str (d : document) : Prop :=
  ∃ s, d !! "_id" = Some (VStr s).

(** The store keeps one document per ["_id"]. *)
Definition unique_ids (db : database) : Prop :=
  NoDup ((λ d : document, d !! "_id") <$> announcements_collection db).

(** Every stored document has an ["_id"]. *)
Definition has_ids (db : database) : Prop :=
  Forall (λ d : document, is_Some (d !! "_id")) (announcements_collection db).

Definition is_id (obj_id : ObjectId) (d : document) : Prop :=
  d !! "_id" = Some (VObjectId obj_id).

#[global] Instance unique_ids_dec db : Decision (unique_ids db).
Proof. unfold unique_ids. apply _. Defined.

#[global] Instance has_ids_dec db : Decision (has_ids db).
Proof. unfold has_ids. apply _. Defined.

Module Spec.

(** A pure calendar date in the spec's sense: the text [YYYY-MM-DD] of a day
    that exists, and nothing else. *)
Definition is_calendar_date (s : string) : bool :=
  match parse_digits s 0 0 4, parse_digits s 5 0 2, parse_digits s 8 0 2 with
  | Some (_, y), Some (_, m), Some (_, d) =>
      (String.length s =? 10)%nat &&
      is_char (byte_at s 4) "-" && is_char (byte_at s 7) "-" &&
      valid_date (mkDate y m d)
  | _, _, _ => false
  end.

(** The window of §8: today ∈ [start_date or -∞, expiration_date], days
    being compared as the store compares the strings that hold them. *)
Definition in_window (today : string) (d : document) : Prop :=
  (match d !! "start_date" with
   | None | Some VNull => True
   | Some (VStr s) => StrOrd.le s today
   | Some (VObjectId _) => False
   end) ∧
  (match d !! "expiration_date" with
   | Some (VStr e) => StrOrd.le today e
   | _ => False
   end).

End Spec.

(** The 401 that a caller who is not known gets. *)
Definition unauthenticated (username : option string) : exn :=
  HTTPException 401
    (if truthy username then "Invalid user" else "Authentication required").

(** The 400 that dates which do not pass validation get. *)
Definition invalid_dates (expiration_date : string)
    (start_date : option string) : exn :=
  HTTPException 400
    (match parse_date expiration_date, start_date with
     | Some _, Some s =>
         if parse_date s is Some _
         then "Start date must be before expiration date"
         else "Invalid date format"
     | _, _ => "Invalid date format"
     end).

Lemma parse_date_nonempty (s : string) (d : date) :
  parse_date s = Some d → String.eqb s "" = false.
Proof. now destruct s. Qed.

(** ** Running a handler *)

Lemma bind_run {A B} (m : handler A) (k : A → handler B) (db : database) :
  (m ≫= k) db =
  match m db with
  | (Return a, db') => k a db'
  | (Raise e, db') => (Raise e, db')
  end.
Proof. reflexivity. Qed.

Lemma set_announcements_same (db : database) :
  mkDatabase (announcements_collection db) (teachers_collection db) = db.
Proof. now destruct db. Qed.

(** ** The store operations *)

Module MongoFacts.
Import Mongo.

Lemma matches_id (v : value) (d : document) :
  v ≠ VNull →
  matches (Field "_id" (Eq_ v)) d = bool_decide (d !! "_id" = Some v).
Proof.
  intros Hv. simpl. apply bool_decide_ext.
  split; [intros [H|[H _]]; [done|now destruct Hv]|now left].
Qed.

Lemma matches_is_id (o : ObjectId) (d : document) :
  matches (by_id o) d = true ↔ is_id o d.
Proof.
  unfold by_id. rewrite matches_id by discriminate. unfold is_id.
  now rewrite bool_decide_eq_true.
Qed.

Lemma find_one_None (q : filter_doc) (coll : list document) :
  find_one q coll = None ↔ ∀ d, d ∈ coll → matches q d = false.
Proof.
  unfold find_one. split.
  - intros H d Hd%list_elem_of_In. eapply List.find_none; eauto.
  - induction coll as [|d coll IH]; simpl; [done|]. intros H.
    rewrite (H d) by left. apply IH. intros d' Hd'. apply H. now right.
Qed.

(** With no match [update_one] and [delete_one] count 0 and change
    nothing. *)
Lemma update_one_none q upd coll :
  (∀ d, d ∈ coll → matches q d = false) → update_one q upd coll = (0%nat, coll).
Proof.
  induction coll as [|d coll IH]; simpl; [done|]. intros H.
  rewrite (H d) by left. rewrite IH; [done|].
  intros d' Hd'. apply H. now right.
Qed.

Lemma delete_one_none q coll :
  (∀ d, d ∈ coll → matches q d = false) → delete_one q coll = (0%nat, coll).
Proof.
  induction coll as [|d coll IH]; simpl; [done|]. intros H.
  rewrite (H d) by left. rewrite IH; [done|].
  intros d' Hd'. apply H. now right.
Qed.

End MongoFacts.

(** ** Authentication and validation *)

Section Authentication.
Variable db : database.

Lemma teacher_found (u : string) :
  existsb (λ t : document, bool_decide (t !! "_id" = Some (VStr u)))
    (teachers_collection db) =
  truthy_doc (Mongo.find_one (Mongo.Field "_id" (Mongo.Eq_ (VStr u)))
                (teachers_collection db)).
Proof.
  unfold Mongo.find_one.
  induction (teachers_collection db) as [|t coll IH]; [done|].
  cbn [existsb List.find]. rewrite MongoFacts.matches_id by discriminate.
  destruct (bool_decide (t !! "_id" = Some (VStr u))) eqn:Ht; [|done].
  apply bool_decide_eq_true in Ht. simpl.
  rewrite bool_decide_eq_false_2; [done|].
  intros ->. now rewrite lookup_empty in Ht.
Qed.

(** A known caller passes, and nothing changes. *)
Lemma authenticate_known (username : option string) :
  known_user db username = true →
  authenticate username db = (Return tt, db).
Proof.
  unfold known_user, authenticate. destruct username as [u|]; [|done].
  intros [Hu Ht]%andb_prop. cbn [truthy to_value]. rewrite Hu.
  cbn [negb]. rewrite bind_run. cbn [teachers].
  now rewrite <- teacher_found, Ht.
Qed.

Lemma authenticate_cases (username : option string) :
  authenticate username db =
  (if known_user db username then Return tt
   else Raise (unauthenticated username), db).
Proof.
  destruct (known_user db username) eqn:Hk.
  - now apply authenticate_known.
  - revert Hk. unfold known_user, authenticate, unauthenticated.
    destruct username as [u|]; [|done]. cbn [truthy to_value].
    destruct (negb (String.eqb u "")); cbn [negb andb]; [|done].
    intros Ht. rewrite bind_run. cbn [teachers].
    now rewrite <- teacher_found, Ht.
Qed.

End Authentication.

Section Validation.
Variables (expiration_date : string) (start_date : option string).
Variable db : database.

Lemma validate_dates_cases :
  validate_dates expiration_date start_date db =
  (if dates_ok expiration_date start_date then Return tt
   else Raise (invalid_dates expiration_date start_date), db).
Proof.
  unfold validate_dates, dates_ok, invalid_dates.
  destruct (parse_date expiration_date) as [e|]; [|done].
  destruct start_date as [s|]; [|done]. cbn [truthy to_value py_str].
  destruct (String.eqb s ""); cbn [negb orb]; [done|].
  destruct (parse_date s) as [st|]; [|done].
  now destruct (date_gtb st e).
Qed.

End Validation.

(** ** Sorting and the response loop *)

Module SortFacts.
Import Mongo.

#[global] Instance le_total : Total le.
Proof.
  intros a b. unfold le.
  destruct (Z.lt_trichotomy (kind a) (kind b)) as [?|[E|?]]; [tauto| |tauto].
  destruct (total StrOrd.le (payload a) (payload b)); [left|right]; right;
    split; congruence.
Qed.

#[global] Instance le_trans : Transitive le.
Proof.
  intros a b c [Hab|[Eab Hab]] [Hbc|[Ebc Hbc]]; unfold le.
  - left. lia.
  - left. lia.
  - left. lia.
  - right. split; [lia|]. now transitivity (payload b).
Qed.

#[global] Instance descending_total key : Total (descending key).
Proof. intros a b. unfold descending. apply (total le). Qed.

#[global] Instance descending_trans key : Transitive (descending key).
Proof.
  intros a b c Hab Hbc. unfold descending in *. now transitivity (b !! key).
Qed.

Lemma sort_desc_sorted key cursor :
  StronglySorted (descending key) (sort_desc key cursor).
Proof. apply StronglySorted_merge_sort; apply _. Qed.

Lemma sort_desc_elem key cursor d :
  d ∈ sort_desc key cursor ↔ d ∈ cursor.
Proof. unfold sort_desc. now rewrite merge_sort_Permutation. Qed.

Lemma find_elem q coll d : d ∈ find q coll ↔ d ∈ coll ∧ matches q d = true.
Proof.
  unfold find. rewrite !list_elem_of_In, List.filter_In. tauto.
Qed.

(** A relation that only reads one field holds of documents that agree on
    that field. *)
Lemma sorted_agree key (l l' : list document) :
  Forall2 (λ a a' : document, a' !! key = a !! key) l l' →
  StronglySorted (descending key) l → StronglySorted (descending key) l'.
Proof.
  intros HF. induction HF as [|a a' l l' Ha HF IH]; [done|].
  rewrite !StronglySorted_cons. intros [Hall Hs]. split; [|now apply IH].
  clear IH Hs. induction HF as [|b b' l l' Hb HF IH]; [done|].
  inv Hall. constructor; [|now apply IH].
  unfold descending in *. now rewrite Ha, Hb.
Qed.

End SortFacts.

Section Responses.

(** What the response loop does to one document. *)
Definition stringified (a a' : document) : Prop :=
  ∃ v, a !! "_id" = Some v ∧ a' = <["_id" := VStr (py_str v)]> a.

Lemma stringify_id_Return a a' db db' :
  stringify_id a db = (Return a', db') → db' = db ∧ stringified a a'.
Proof.
  unfold stringify_id, stringified. destruct (a !! "_id") as [v|] eqn:E.
  - intros [= <- <-]. eauto.
  - discriminate.
Qed.

Lemma stringify_ids_Return l l' db db' :
  stringify_ids l db = (Return l', db') →
  db' = db ∧ Forall2 stringified l l'.
Proof.
  revert l' db'. induction l as [|a l IH]; intros l' db'; simpl.
  - intros [= <- <-]. split; [done|constructor].
  - rewrite bind_run.
    destruct (stringify_id a db) as [[a'|e] db1] eqn:Ea; [|discriminate].
    apply stringify_id_Return in Ea as [-> Ha]. rewrite bind_run.
    destruct (stringify_ids l db) as [[r|e] db2] eqn:El; [|discriminate].
    destruct (IH _ _ eq_refl) as [-> HF].
    intros [= <- <-]. split; [done|]. now constructor.
Qed.

(** The loop goes through when every document has an ["_id"]. *)
Lemma stringify_ids_total l db :
  Forall (λ d : document, is_Some (d !! "_id")) l →
  ∃ l', stringify_ids l db = (Return l', db).
Proof.
  induction 1 as [|a l [v Hv] _ [l' IH]]; simpl; [now eexists|].
  rewrite bind_run. unfold stringify_id at 1. rewrite Hv. simpl.
  rewrite bind_run, IH. now eexists.
Qed.

Lemma stringified_other key a a' :
  key ≠ "_id" → stringified a a' → a' !! key = a !! key.
Proof.
  intros Hk (v & _ & ->). now rewrite lookup_insert_ne.
Qed.

Lemma stringified_id a a' : stringified a a' → id_is_str a'.
Proof.
  intros (v & _ & ->). exists (py_str v). now rewrite lookup_insert_eq.
Qed.

End Responses.

(** ** Sample data *)

Module Sample.

Definition jdoe : document := {[ "_id" := VStr "jdoe" ]}.

Definition id1 : ObjectId := mkObjectId "665f1a2b3c4d5e6f70819203".
Definition id2 : ObjectId := mkObjectId "665f1a2b3c4d5e6f70819204".

Definition may_1st_9am : datetime := mkDatetime (mkDate 2024 5 1) 9 0 0 0.
Definition may_2nd_9am : datetime := mkDatetime (mkDate 2024 5 2) 9 0 0 0.

(** No announcement yet, one teacher. *)
Definition empty_db : database := mkDatabase [] [jdoe].

(** The store after the create call of the example in §8. *)
Definition exam_db : database :=
  snd (create_announcement may_1st_9am id1 "Exam Friday" "2024-06-01"
         (Some "jdoe") (Some "2024-05-01") empty_db).

(** The store after a second create call, without a start date. *)
Definition two_db : database :=
  snd (create_announcement may_2nd_9am id2 "Sports day" "2024-06-30"
         (Some "jdoe") None exam_db).

(** The record that the second create call returns. *)
Definition sports_day : document :=
  <["_id" := VStr (binary id2)]>
    (new_announcement may_2nd_9am "Sports day" "2024-06-30" (Some "jdoe")
       None).

(** What a handler returned, or a default when it raised. *)
Definition returned {A} (default : A) (run : result A * database) : A :=
  match fst run with
  | Return a => a
  | Raise _ => default
  end.

(** An update of the first record of [two_db]. *)
Definition exam_moved : result document * database :=
  update_announcement may_2nd_9am "665f1a2b3c4d5e6f70819203" "Exam Monday"
    "2024-06-03" (Some "jdoe") None two_db.

(** The two listings of [two_db] on 15 May 2024. *)
Definition active_listing : list document :=
  returned [] (get_active_announcements (mkDate 2024 5 15) two_db).

Definition full_listing : list document :=
  returned [] (get_all_announcements (Some "jdoe") two_db).

End Sample.

(** ** What each mutating handler does, step by step *)

Section Runs.
Variable db : database.
Variables (utcnow : datetime) (inserted_id : ObjectId).
Variables (announcement_id message expiration_date : string).
Variables (username start_date : option string).

Let coll := announcements_collection db.
Let known := known_user db username.
Let valid := dates_ok expiration_date start_date.

Lemma create_run :
  create_announcement utcnow inserted_id message expiration_date username
    start_date db =
  if negb known then (Raise (unauthenticated username), db)
  else if negb valid then
    (Raise (invalid_dates expiration_date start_date), db)
  else
    let announcement :=
      new_announcement utcnow message expiration_date username start_date in
    match Mongo.insert_one inserted_id announcement coll with
    | None => (Raise DuplicateKeyError, db)
    | Some coll' =>
        (Return (<["_id" := VStr (binary inserted_id)]> announcement),
         mkDatabase coll' (teachers_collection db))
    end.
Proof.
  subst known valid coll. unfold create_announcement.
  rewrite bind_run, authenticate_cases.
  destruct (known_user db username); [|done]. cbn [negb].
  rewrite bind_run, validate_dates_cases.
  destruct (dates_ok expiration_date start_date); [|done]. cbn [negb].
  rewrite bind_run. cbn [announcements].
  now destruct (Mongo.insert_one _ _ _).
Qed.

Lemma update_run :
  update_announcement utcnow announcement_id message expiration_date username
    start_date db =
  if negb known then (Raise (unauthenticated username), db)
  else if negb valid then
    (Raise (invalid_dates expiration_date start_date), db)
  else
    match ObjectId_of_str announcement_id with
    | None => (Raise (HTTPException 400 "Invalid announcement ID"), db)
    | Some obj_id =>
        let update_data :=
          new_update_data utcnow message expiration_date username start_date in
        let r := Mongo.update_one (by_id obj_id) update_data coll in
        let db' := mkDatabase (snd r) (teachers_collection db) in
        if (fst r =? 0)%nat then
          (Raise (HTTPException 404 "Announcement not found"), db')
        else
          match Mongo.find_one (by_id obj_id) (snd r) with
          | None => (Raise TypeError, db')
          | Some announcement => stringify_id announcement db'
          end
    end.
Proof.
  subst known valid coll. unfold update_announcement.
  rewrite bind_run, authenticate_cases.
  destruct (known_user db username); [|done]. cbn [negb].
  rewrite bind_run, validate_dates_cases.
  destruct (dates_ok expiration_date start_date); [|done]. cbn [negb].
  destruct (ObjectId_of_str announcement_id) as [obj_id|]; [|done].
  rewrite bind_run. cbn [announcements].
  destruct (Mongo.update_one _ _ _) as [n coll']. cbn [fst snd].
  rewrite bind_run. cbn [set_announcements].
  destruct (n =? 0)%nat; [done|].
  rewrite bind_run. cbn [announcements announcements_collection].
  now destruct (Mongo.find_one _ _).
Qed.

Lemma delete_run :
  delete_announcement announcement_id username db =
  if negb known then (Raise (unauthenticated username), db)
  else
    match ObjectId_of_str announcement_id with
    | None => (Raise (HTTPException 400 "Invalid announcement ID"), db)
    | Some obj_id =>
        let r := Mongo.delete_one (by_id obj_id) coll in
        let db' := mkDatabase (snd r) (teachers_collection db) in
        if (fst r =? 0)%nat then
          (Raise (HTTPException 404 "Announcement not found"), db')
        else
          (Return {[ "message" := VStr "Announcement deleted successfully" ]},
           db')
    end.
Proof.
  subst known coll. unfold delete_announcement.
  rewrite bind_run, authenticate_cases.
  destruct (known_user db username); [|done]. cbn [negb].
  destruct (ObjectId_of_str announcement_id) as [obj_id|]; [|done].
  rewrite bind_run. cbn [announcements].
  destruct (Mongo.delete_one _ _) as [n coll']. cbn [fst snd].
  rewrite bind_run. cbn [set_announcements].
  now destruct (n =? 0)%nat.
Qed.

Lemma get_all_run :
  get_all_announcements username db =
  if negb known then (Raise (unauthenticated username), db)
  else
    stringify_ids (Mongo.sort_desc "created_at" (Mongo.find (Mongo.All_ []) coll))
      db.
Proof.
  subst known coll. unfold get_all_announcements.
  rewrite bind_run, authenticate_cases.
  now destruct (known_user db username).
Qed.

End Runs.

(** No handler touches the teachers. *)
Lemma known_user_same_teachers db db' username :
  teachers_collection db' = teachers_collection db →
  known_user db' username = known_user db username.
Proof. unfold known_user. now intros ->. Qed.

(** ** Frame properties of the store operations *)

Module FrameFacts.
Import Mongo.

(** [update_one] touches at most documents that match, and what it writes is
    the old document overlaid with the update. *)
Lemma update_one_frame q upd coll :
  Forall2 (λ old new : document,
             new = old ∨ (matches q old = true ∧ new = upd ∪ old))
    coll (snd (update_one q upd coll)).
Proof.
  induction coll as [|d coll IH]; simpl; [constructor|].
  destruct (matches q d) eqn:Hm.
  - simpl. constructor; [now right|].
    apply Forall_Forall2_diag, Forall_true. now left.
  - destruct (update_one q upd coll) as [n r]. simpl in *.
    constructor; [now left|done].
Qed.

(** After [delete_one] took a document out of a collection with one document
    per key, no document with that key is left. *)
Lemma delete_one_unique obj_id coll :
  NoDup ((λ d : document, d !! "_id") <$> coll) →
  fst (delete_one (by_id obj_id) coll) ≠ 0%nat →
  ∀ d, d ∈ snd (delete_one (by_id obj_id) coll) → ¬ is_id obj_id d.
Proof.
  induction coll as [|a coll IH]; [done|].
  cbn [delete_one]. rewrite fmap_cons, NoDup_cons. intros [Ha Hnd].
  destruct (matches (by_id obj_id) a) eqn:Hm.
  - cbn [fst snd]. intros _ d Hd Hid. apply MongoFacts.matches_is_id in Hm.
    apply Ha. unfold is_id in *. rewrite Hm, <- Hid.
    apply list_elem_of_fmap. exists d. split; [reflexivity|assumption].
  - destruct (delete_one (by_id obj_id) coll) as [n r]. cbn [fst snd] in *.
    intros Hn d [->|Hd]%elem_of_cons.
    + intros Hid%MongoFacts.matches_is_id. congruence.
    + now apply IH.
Qed.

Lemma insert_one_Some inserted_id doc coll coll' :
  insert_one inserted_id doc coll = Some coll' →
  coll' = coll ++ [<["_id" := VObjectId inserted_id]> doc] ∧
  ∀ d, d ∈ coll → ¬ is_id inserted_id d.
Proof.
  unfold insert_one.
  destruct (find_one _ coll) eqn:Hf; [discriminate|]. intros [= <-].
  split; [done|]. intros d Hd Hid.
  rewrite MongoFacts.find_one_None in Hf. specialize (Hf d Hd).
  apply MongoFacts.matches_is_id in Hid. unfold by_id in Hid. congruence.
Qed.

End FrameFacts.

(** ** The dicts that create and update build *)

Section Dicts.
Variables (utcnow : datetime) (message expiration_date : string).
Variables (username start_date : option string).

Let announcement :=
  new_announcement utcnow message expiration_date username start_date.
Let update_data :=
  new_update_data utcnow message expiration_date username start_date.

Lemma new_update_data_dates :
  update_data !! "start_date" = Some (to_value start_date) ∧
  update_data !! "expiration_date" = Some (VStr expiration_date).
Proof. split; reflexivity. Qed.

Lemma new_update_data_keeps :
  update_data !! "created_by" = None ∧
  update_data !! "created_at" = None ∧
  update_data !! "_id" = None.
Proof. repeat split; reflexivity. Qed.

End Dicts.

(** A record that holds dates which passed validation satisfies the
    invariant of §3. *)
Lemma dates_ok_invariant (expiration_date : string)
    (start_date : option string) (d : document) :
  dates_ok expiration_date start_date = true →
  d !! "start_date" = Some (to_value start_date) →
  d !! "expiration_date" = Some (VStr expiration_date) →
  start_le_expiration d.
Proof.
  unfold dates_ok, start_le_expiration, field_date.
  intros Hok Hs He st. rewrite Hs, He.
  destruct (parse_date expiration_date) as [e|]; [|done].
  destruct start_date as [s|]; [|done]. cbn [to_value].
  intros Hst. rewrite Hst, (parse_date_nonempty _ _ Hst) in Hok.
  exists e. split; [done|]. unfold date_le, date_gtb in *.
  now destruct (date_compare st e).
Qed.

(** ** The order of validation *)

(** C7: when the caller is missing, empty, or not a known user, each of
    list_all, create, update and delete fails with Unauthenticated (401)
    whatever the payload is, valid or not, and leaves the database as it
    was. *)
Theorem unknown_caller_unauthenticated
    (db : database) (username : option string)
    (utcnow : datetime) (inserted_id : ObjectId)
    (announcement_id message expiration_date : string)
    (start_date : option string) :
  known_user db username = false →
  (∃ detail, get_all_announcements username db =
             (Raise (HTTPException 401 detail), db)) ∧
  (∃ detail, create_announcement utcnow inserted_id message expiration_date
               username start_date db =
             (Raise (HTTPException 401 detail), db)) ∧
  (∃ detail, update_announcement utcnow announcement_id message
               expiration_date username start_date db =
             (Raise (HTTPException 401 detail), db)) ∧
  (∃ detail, delete_announcement announcement_id username db =
             (Raise (HTTPException 401 detail), db)).
Proof.
  intros Hk. rewrite get_all_run, create_run, update_run, delete_run, Hk.
  unfold unauthenticated. cbn [negb]. eauto 10.
Qed.

Lemma unknown_caller_unauthenticated_witness :
  known_user Sample.exam_db (Some "ghost") = false ∧
  (∃ detail, create_announcement Sample.may_2nd_9am Sample.id2 "x"
               "not a date" (Some "ghost") None Sample.exam_db =
             (Raise (HTTPException 401 detail), Sample.exam_db)).
Proof.
  split; [reflexivity|].
  apply (unknown_caller_unauthenticated Sample.exam_db (Some "ghost")
           Sample.may_2nd_9am Sample.id2 "zz" "x" "not a date" None).
  reflexivity.
Defined.

(** ** Validation of the payload *)

(** C2, as stated, fails: an expiration date that carries a time of day is
    not a pure calendar date, yet create accepts it from a known caller. *)
Lemma time_of_day_is_accepted :
  Spec.is_calendar_date "2024-06-01T10:00:00" = false ∧
  known_user Sample.empty_db (Some "jdoe") = true ∧
  fst (create_announcement Sample.may_1st_9am Sample.id1 "Exam Friday"
         "2024-06-01T10:00:00" (Some "jdoe") None Sample.empty_db)
  = Return (<["_id" := VStr (binary Sample.id1)]>
              (new_announcement Sample.may_1st_9am "Exam Friday"
                 "2024-06-01T10:00:00" (Some "jdoe") None)).
Proof.
  repeat split; reflexivity.
Qed.

(** Other ISO 8601 forms that [datetime.fromisoformat] reads: a trailing
    [Z], a date without dashes, a week date, a time without colons, a comma
    before the fraction, an offset of hours only. *)
Example reads_other_iso_forms :
  parse_date "2024-06-01T10:00:00Z" = Some (mkDate 2024 6 1) ∧
  parse_date "20240601" = Some (mkDate 2024 6 1) ∧
  parse_date "2024-W22-6" = Some (mkDate 2024 6 1) ∧
  parse_date "20240601T1000" = Some (mkDate 2024 6 1) ∧
  parse_date "2024-06-01 10:00:00,5+05" = Some (mkDate 2024 6 1) ∧
  parse_date "2024-06-1" = None ∧
  parse_date "2024-06" = None ∧
  parse_date "2024-06-01T" = None ∧
  parse_date "2024-02-30" = None.
Proof. repeat split; reflexivity. Qed.

(** C2, amended: for a known caller, create fails with InvalidArgument (400)
    exactly when the dates do not pass validation, and update exactly when
    they do not or the identifier is not a well-formed ObjectId.  The dates
    pass when [datetime.fromisoformat] reads the expiration date and, for a
    start date that is given and not empty, reads it too and its calendar
    day is not after the expiration day; a time of day is read and
    ignored. *)
Theorem invalid_argument_iff
    (db : database) (username : option string)
    (utcnow : datetime) (inserted_id : ObjectId)
    (announcement_id message expiration_date : string)
    (start_date : option string) :
  known_user db username = true →
  ((∃ detail, fst (create_announcement utcnow inserted_id message
                     expiration_date username start_date db)
              = Raise (HTTPException 400 detail))
   ↔ dates_ok expiration_date start_date = false) ∧
  ((∃ detail, fst (update_announcement utcnow announcement_id message
                     expiration_date username start_date db)
              = Raise (HTTPException 400 detail))
   ↔ dates_ok expiration_date start_date = false ∨
     ObjectId_of_str announcement_id = None).
Proof.
  intros Hk. rewrite create_run, update_run, Hk. cbn [negb].
  unfold invalid_dates.
  destruct (dates_ok expiration_date start_date); cbn [negb fst].
  2:{ split; (split; [auto|eauto]). }
  split.
  - destruct (Mongo.insert_one _ _ _); cbn [fst];
      (split; [intros [? [=]]|discriminate]).
  - destruct (ObjectId_of_str announcement_id) as [obj_id|].
    2:{ cbn [fst]. split; eauto. }
    split; [|intros [[=]|[=]]]. intros [detail H]. exfalso. revert H.
    cbn zeta. destruct (_ =? _)%nat; [discriminate|].
    destruct (Mongo.find_one _ _) as [a|]; [|discriminate].
    unfold stringify_id. now destruct (a !! "_id").
Qed.

Lemma invalid_argument_iff_witness :
  known_user Sample.exam_db (Some "jdoe") = true ∧
  ((∃ detail, fst (update_announcement Sample.may_2nd_9am "nonsense"
                     "Exam Monday" "2024-06-03" (Some "jdoe") (Some "")
                     Sample.exam_db)
              = Raise (HTTPException 400 detail))
   ↔ dates_ok "2024-06-03" (Some "") = false ∨
     ObjectId_of_str "nonsense" = None).
Proof.
  split; [reflexivity|].
  apply (invalid_argument_iff Sample.exam_db (Some "jdoe") Sample.may_2nd_9am
           Sample.id2 "nonsense" "Exam Monday" "2024-06-03" (Some "")).
  reflexivity.
Defined.

(** C3, as stated, fails: an unknown caller who sends a start date after the
    expiration date gets Unauthenticated (401), not InvalidArgument. *)
Lemma start_after_expiration_unknown_caller :
  parse_date "2024-07-01" = Some (mkDate 2024 7 1) ∧
  parse_date "2024-06-01" = Some (mkDate 2024 6 1) ∧
  date_gtb (mkDate 2024 7 1) (mkDate 2024 6 1) = true ∧
  fst (create_announcement Sample.may_1st_9am Sample.id1 "Exam Friday"
         "2024-06-01" (Some "ghost") (Some "2024-07-01") Sample.empty_db)
  = Raise (HTTPException 401 "Invalid user").
Proof. repeat split; reflexivity. Qed.



(** C3, amended: a create call whose two dates are read and whose start day
    is after its expiration day never changes the database, and when the
    caller is known it fails with InvalidArgument (400). *)
Theorem create_start_after_expiration
    (db : database) (username : option string)
    (utcnow : datetime) (inserted_id : ObjectId)
    (message expiration_date start_date : string) (st_date exp_date : date) :
  parse_date start_date = Some st_date →
  parse_date expiration_date = Some exp_date →
  date_gtb st_date exp_date = true →
  let run := create_announcement utcnow inserted_id message expiration_date
               username (Some start_date) db in
  snd run = db ∧
  (known_user db username = true →
   fst run = Raise (HTTPException 400
                      "Start date must be before expiration date")).
Proof.
  intros Hst Hexp Hgt run. subst run. rewrite create_run.
  assert (dates_ok expiration_date (Some start_date) = false) as ->.
  { unfold dates_ok.
    now rewrite Hexp, Hst, Hgt, (parse_date_nonempty _ _ Hst). }
  unfold invalid_dates. rewrite Hexp, Hst.
  now destruct (known_user db username).
Qed.

Lemma create_start_after_expiration_witness :
  let run := create_announcement Sample.may_1st_9am Sample.id1 "Exam Friday"
               "2024-06-01" (Some "jdoe") (Some "2024-07-01")
               Sample.empty_db in
  snd run = Sample.empty_db ∧
  (known_user Sample.empty_db (Some "jdoe") = true →
   fst run = Raise (HTTPException 400
                      "Start date must be before expiration date")).
Proof.
  apply (create_start_after_expiration Sample.empty_db (Some "jdoe")
           Sample.may_1st_9am Sample.id1 "Exam Friday" "2024-06-01"
           "2024-07-01" (mkDate 2024 7 1) (mkDate 2024 6 1));
    reflexivity.
Defined.

(** ** Update and delete of records that are not there *)

(** C4: an update by a known caller, with dates that pass validation and a
    well-formed identifier that no stored record has, fails with NotFound
    (404) and leaves the database as it was. *)
Theorem update_missing_not_found
    (db : database) (username : option string) (utcnow : datetime)
    (announcement_id message expiration_date : string)
    (start_date : option string) (obj_id : ObjectId) :
  known_user db username = true →
  dates_ok expiration_date start_date = true →
  ObjectId_of_str announcement_id = Some obj_id →
  (∀ d, d ∈ announcements_collection db → ¬ is_id obj_id d) →
  update_announcement utcnow announcement_id message expiration_date username
    start_date db
  = (Raise (HTTPException 404 "Announcement not found"), db).
Proof.
  intros Hk Hv Hid Hnone. rewrite update_run, Hk, Hv, Hid. cbn [negb].
  rewrite MongoFacts.update_one_none.
  - cbn [fst snd Nat.eqb]. now rewrite set_announcements_same.
  - intros d Hd. specialize (Hnone d Hd).
    rewrite <- MongoFacts.matches_is_id in Hnone.
    now destruct (Mongo.matches (by_id obj_id) d).
Qed.

Lemma update_missing_not_found_witness :
  update_announcement Sample.may_2nd_9am "665f1a2b3c4d5e6f70819204"
    "Exam Monday" "2024-06-03" (Some "jdoe") (Some "2024-05-01")
    Sample.exam_db
  = (Raise (HTTPException 404 "Announcement not found"), Sample.exam_db).
Proof.
  apply (update_missing_not_found Sample.exam_db (Some "jdoe")
           Sample.may_2nd_9am "665f1a2b3c4d5e6f70819204" "Exam Monday"
           "2024-06-03" (Some "2024-05-01") Sample.id2);
    [reflexivity|reflexivity|reflexivity|].
  intros d Hd Hid%MongoFacts.matches_is_id.
  assert (Mongo.find_one (by_id Sample.id2)
            (announcements_collection Sample.exam_db) = None) as Hnone
    by reflexivity.
  rewrite MongoFacts.find_one_None in Hnone. specialize (Hnone d Hd).
  congruence.
Defined.

(** C5: when a delete succeeded on a store that keeps one record per
    identifier, the same delete again fails with NotFound (404) and leaves the
    database as the first delete left it. *)
Theorem delete_twice_not_found
    (db db1 : database) (username : option string) (announcement_id : string)
    (r : document) :
  unique_ids db →
  delete_announcement announcement_id username db = (Return r, db1) →
  delete_announcement announcement_id username db1
  = (Raise (HTTPException 404 "Announcement not found"), db1).
Proof.
  intros Hu. rewrite !delete_run.
  destruct (known_user db username) eqn:Hk; [|discriminate]. cbn [negb].
  destruct (ObjectId_of_str announcement_id) as [obj_id|]; [|discriminate].
  cbn zeta.
  destruct (fst (Mongo.delete_one (by_id obj_id) (announcements_collection db))
            =? 0)%nat eqn:Hn; [discriminate|].
  intros [= <- <-]. cbn [announcements_collection teachers_collection].
  rewrite (known_user_same_teachers db) by done. rewrite Hk. cbn [negb].
  rewrite MongoFacts.delete_one_none; [done|].
  intros d Hd. apply Nat.eqb_neq in Hn.
  pose proof (FrameFacts.delete_one_unique obj_id _ Hu Hn d Hd) as Hid.
  rewrite <- MongoFacts.matches_is_id in Hid.
  now destruct (Mongo.matches (by_id obj_id) d).
Qed.

Lemma delete_twice_not_found_witness :
  let db1 := snd (delete_announcement "665f1a2b3c4d5e6f70819203" (Some "jdoe")
                    Sample.exam_db) in
  delete_announcement "665f1a2b3c4d5e6f70819203" (Some "jdoe") db1
  = (Raise (HTTPException 404 "Announcement not found"), db1).
Proof.
  apply (delete_twice_not_found Sample.exam_db _ (Some "jdoe")
           "665f1a2b3c4d5e6f70819203"
           {[ "message" := VStr "Announcement deleted successfully" ]}).
  - apply (bool_decide_unpack (unique_ids Sample.exam_db)).
    vm_compute. exact I.
  - reflexivity.
Defined.

(** ** Records written by create and update *)

(** C8: the record that a successful create adds, and every record that a
    successful update changes, satisfies: if its start date denotes a
    calendar day, so does its expiration date, and the start day is not after
    the expiration day. *)
Theorem written_records_ordered
    (db : database) (utcnow : datetime) (inserted_id : ObjectId)
    (announcement_id message expiration_date : string)
    (username start_date : option string) :
  (∀ r db',
     create_announcement utcnow inserted_id message expiration_date username
       start_date db = (Return r, db') →
     ∃ d, announcements_collection db' = announcements_collection db ++ [d] ∧
          start_le_expiration d) ∧
  (∀ r db',
     update_announcement utcnow announcement_id message expiration_date
       username start_date db = (Return r, db') →
     Forall2 (λ old new : document, new = old ∨ start_le_expiration new)
       (announcements_collection db) (announcements_collection db')).
Proof.
  split; intros r db'.
  - rewrite create_run.
    destruct (known_user db username); [|discriminate].
    destruct (dates_ok expiration_date start_date) eqn:Hv; [|discriminate].
    cbn [negb].
    destruct (Mongo.insert_one _ _ _) as [coll'|] eqn:Hi; [|discriminate].
    apply FrameFacts.insert_one_Some in Hi as [-> _]. intros [= _ <-].
    eexists. split; [reflexivity|].
    eapply dates_ok_invariant; [exact Hv|reflexivity|reflexivity].
  - rewrite update_run.
    destruct (known_user db username); [|discriminate].
    destruct (dates_ok expiration_date start_date) eqn:Hv; [|discriminate].
    cbn [negb].
    destruct (ObjectId_of_str announcement_id) as [obj_id|]; [|discriminate].
    cbn zeta. intros H.
    assert (db' = mkDatabase
              (snd (Mongo.update_one (by_id obj_id)
                      (new_update_data utcnow message expiration_date username
                         start_date) (announcements_collection db)))
              (teachers_collection db)) as ->.
    { revert H. destruct (_ =? _)%nat; [discriminate|].
      destruct (Mongo.find_one _ _) as [a|]; [|discriminate].
      now intros [-> _]%stringify_id_Return. }
    cbn [announcements_collection].
    eapply Forall2_impl; [apply FrameFacts.update_one_frame|].
    intros old new [->|[_ ->]]; [now left|right].
    destruct (new_update_data_dates utcnow message expiration_date username
                start_date) as [Hs He].
    eapply dates_ok_invariant; [exact Hv| |].
    + now rewrite (lookup_union_Some_l _ _ _ _ Hs).
    + now rewrite (lookup_union_Some_l _ _ _ _ He).
Qed.

(** The record that the create call of [Sample.exam_db] stored, and the
    second record of [Sample.two_db] after an update that gives it a start
    date. *)
Definition exam_stored : document :=
  default ∅ (announcements_collection Sample.exam_db !! 0%nat).

Definition sports_day_moved : result document * database :=
  update_announcement Sample.may_2nd_9am "665f1a2b3c4d5e6f70819204"
    "Sports day" "2024-06-30" (Some "jdoe") (Some "2024-06-15") Sample.two_db.

Definition sports_stored : document :=
  default ∅ (announcements_collection (snd sports_day_moved) !! 1%nat).

Lemma written_records_ordered_witness :
  field_date exam_stored "start_date" = Some (mkDate 2024 5 1) ∧
  (∃ e, field_date exam_stored "expiration_date" = Some e ∧
        date_le (mkDate 2024 5 1) e) ∧
  field_date sports_stored "start_date" = Some (mkDate 2024 6 15) ∧
  (∃ e, field_date sports_stored "expiration_date" = Some e ∧
        date_le (mkDate 2024 6 15) e).
Proof.
  split; [reflexivity|]. split; [|split; [reflexivity|]].
  - destruct (proj1 (written_records_ordered Sample.empty_db
                       Sample.may_1st_9am Sample.id1 "" "Exam Friday"
                       "2024-06-01" (Some "jdoe") (Some "2024-05-01"))
                (Sample.returned ∅
                   (create_announcement Sample.may_1st_9am Sample.id1
                      "Exam Friday" "2024-06-01" (Some "jdoe")
                      (Some "2024-05-01") Sample.empty_db))
                Sample.exam_db eq_refl) as (d & Hcoll & Hinv).
    change (announcements_collection Sample.exam_db) with [exam_stored]
      in Hcoll.
    change (announcements_collection Sample.empty_db ++ [d]) with [d] in Hcoll.
    injection Hcoll as <-. apply Hinv. reflexivity.
  - pose proof (proj2 (written_records_ordered Sample.two_db
                         Sample.may_2nd_9am Sample.id2
                         "665f1a2b3c4d5e6f70819204" "Sports day" "2024-06-30"
                         (Some "jdoe") (Some "2024-06-15"))
                  (Sample.returned ∅ sports_day_moved) (snd sports_day_moved)
                  eq_refl) as HF.
    assert (announcements_collection Sample.two_db !! 1%nat
            = Some (default ∅ (announcements_collection Sample.two_db
                                !! 1%nat))) as Hold by reflexivity.
    assert (announcements_collection (snd sports_day_moved) !! 1%nat
            = Some sports_stored) as Hnew by reflexivity.
    destruct (Forall2_lookup_lr _ _ _ _ _ _ HF Hold Hnew) as [Heq|Hinv].
    + apply (f_equal (λ d : document, d !! "start_date")) in Heq.
      discriminate Heq.
    + apply Hinv. reflexivity.
Defined.

(** C10: a successful update leaves the teachers alone and, record by record,
    keeps created_by and created_at, and keeps every record whose identifier
    is not the given one exactly as it was. *)
Theorem update_frame
    (db db' : database) (utcnow : datetime)
    (announcement_id message expiration_date : string)
    (username start_date : option string) (r : document) :
  update_announcement utcnow announcement_id message expiration_date username
    start_date db = (Return r, db') →
  teachers_collection db' = teachers_collection db ∧
  ∃ obj_id, ObjectId_of_str announcement_id = Some obj_id ∧
    Forall2 (λ old new : document,
               new !! "created_by" = old !! "created_by" ∧
               new !! "created_at" = old !! "created_at" ∧
               (¬ is_id obj_id old → new = old))
      (announcements_collection db) (announcements_collection db').
Proof.
  rewrite update_run.
  destruct (known_user db username); [|discriminate].
  destruct (dates_ok expiration_date start_date); [|discriminate].
  cbn [negb].
  destruct (ObjectId_of_str announcement_id) as [obj_id|]; [|discriminate].
  cbn zeta. intros H.
  assert (db' = mkDatabase
            (snd (Mongo.update_one (by_id obj_id)
                    (new_update_data utcnow message expiration_date username
                       start_date) (announcements_collection db)))
            (teachers_collection db)) as ->.
  { revert H. destruct (_ =? _)%nat; [discriminate|].
    destruct (Mongo.find_one _ _) as [a|]; [|discriminate].
    now intros [-> _]%stringify_id_Return. }
  split; [done|]. exists obj_id. split; [done|].
  cbn [announcements_collection].
  eapply Forall2_impl; [apply FrameFacts.update_one_frame|].
  intros old new [->|[Hm ->]]; [done|].
  destruct (new_update_data_keeps utcnow message expiration_date username
              start_date) as (Hby & Hat & _).
  rewrite !lookup_union_r by done. repeat split.
  intros []. now apply MongoFacts.matches_is_id.
Qed.

Lemma update_frame_witness :
  let db' := snd Sample.exam_moved in
  teachers_collection db' = teachers_collection Sample.two_db ∧
  ∃ obj_id, ObjectId_of_str "665f1a2b3c4d5e6f70819203" = Some obj_id ∧
    Forall2 (λ old new : document,
               new !! "created_by" = old !! "created_by" ∧
               new !! "created_at" = old !! "created_at" ∧
               (¬ is_id obj_id old → new = old))
      (announcements_collection Sample.two_db) (announcements_collection db').
Proof.
  apply (update_frame Sample.two_db (snd Sample.exam_moved)
           Sample.may_2nd_9am "665f1a2b3c4d5e6f70819203" "Exam Monday"
           "2024-06-03" (Some "jdoe") None
           (Sample.returned ∅ Sample.exam_moved)).
  reflexivity.
Defined.

(** ** Responses *)

(** C9: in each successful response of list_active, list_all, create and
    update, the identifier field of every record is a string. *)
Theorem response_ids_are_strings
    (db : database) (today : date) (utcnow : datetime) (inserted_id : ObjectId)
    (announcement_id message expiration_date : string)
    (username start_date : option string) :
  (∀ l db', get_active_announcements today db = (Return l, db') →
            Forall id_is_str l) ∧
  (∀ l db', get_all_announcements username db = (Return l, db') →
            Forall id_is_str l) ∧
  (∀ r db', create_announcement utcnow inserted_id message expiration_date
              username start_date db = (Return r, db') → id_is_str r) ∧
  (∀ r db', update_announcement utcnow announcement_id message expiration_date
              username start_date db = (Return r, db') → id_is_str r).
Proof.
  repeat split; intros r db'.
  - unfold get_active_announcements. rewrite bind_run. cbn [announcements].
    intros [_ HF]%stringify_ids_Return.
    induction HF; constructor; eauto using stringified_id.
  - rewrite get_all_run. destruct (known_user db username); [|discriminate].
    cbn [negb]. intros [_ HF]%stringify_ids_Return.
    induction HF; constructor; eauto using stringified_id.
  - rewrite create_run. destruct (known_user db username); [|discriminate].
    destruct (dates_ok expiration_date start_date); [|discriminate].
    cbn [negb]. destruct (Mongo.insert_one _ _ _); [|discriminate].
    intros [= <- _]. eexists. apply lookup_insert_eq.
  - rewrite update_run. destruct (known_user db username); [|discriminate].
    destruct (dates_ok expiration_date start_date); [|discriminate].
    cbn [negb]. destruct (ObjectId_of_str announcement_id); [|discriminate].
    cbn zeta. destruct (_ =? _)%nat; [discriminate|].
    destruct (Mongo.find_one _ _) as [a|]; [|discriminate].
    intros [_ Hs]%stringify_id_Return. eauto using stringified_id.
Qed.

Lemma response_ids_are_strings_witness :
  length Sample.active_listing = 1%nat ∧
  Forall id_is_str Sample.active_listing.
Proof.
  split; [reflexivity|].
  apply (proj1 (response_ids_are_strings Sample.two_db (mkDate 2024 5 15)
                  Sample.may_2nd_9am Sample.id2 "" "" "" None None)
           Sample.active_listing Sample.two_db).
  reflexivity.
Defined.

(** ** Order of the listings *)

(** C6: every list that list_active or list_all returns is in descending
    order of created_at, each record's created_at being at least that of
    every record after it; and on a store whose documents all have an
    identifier both handlers do return a list (list_all for a known
    caller). *)
Theorem lists_newest_first
    (db : database) (today : date) (username : option string) :
  (∀ l db', get_active_announcements today db = (Return l, db') →
            StronglySorted (Mongo.descending "created_at") l) ∧
  (∀ l db', get_all_announcements username db = (Return l, db') →
            StronglySorted (Mongo.descending "created_at") l) ∧
  (has_ids db →
   ∃ l, get_active_announcements today db = (Return l, db)) ∧
  (has_ids db → known_user db username = true →
   ∃ l, get_all_announcements username db = (Return l, db)).
Proof.
  assert (∀ cursor l db',
            stringify_ids (Mongo.sort_desc "created_at" cursor) db
            = (Return l, db') →
            StronglySorted (Mongo.descending "created_at") l) as Hsorted.
  { intros cursor l db' [_ HF]%stringify_ids_Return.
    eapply SortFacts.sorted_agree; [|apply SortFacts.sort_desc_sorted].
    eapply Forall2_impl; [exact HF|].
    intros a a' Ha. now apply stringified_other. }
  assert (∀ q, has_ids db →
            ∃ l, stringify_ids
                   (Mongo.sort_desc "created_at"
                      (Mongo.find q (announcements_collection db))) db
                 = (Return l, db)) as Htotal.
  { intros q Hids. apply stringify_ids_total, Forall_forall.
    intros d [Hd _]%SortFacts.sort_desc_elem%SortFacts.find_elem.
    unfold has_ids in Hids. rewrite Forall_forall in Hids. auto. }
  repeat split.
  - intros l db'. unfold get_active_announcements. rewrite bind_run.
    apply Hsorted.
  - intros l db'. rewrite get_all_run.
    destruct (known_user db username); [|discriminate]. apply Hsorted.
  - intros Hids. unfold get_active_announcements. rewrite bind_run.
    apply Htotal, Hids.
  - intros Hids Hk. rewrite get_all_run, Hk. apply Htotal, Hids.
Qed.

Lemma lists_newest_first_witness :
  length Sample.full_listing = 2%nat ∧
  StronglySorted (Mongo.descending "created_at") Sample.full_listing.
Proof.
  split; [reflexivity|].
  apply (proj1 (proj2 (lists_newest_first Sample.two_db (mkDate 2024 5 15)
                         (Some "jdoe")))
           Sample.full_listing Sample.two_db).
  reflexivity.
Defined.

(** Each member of one list of a [Forall2] has a partner in the other. *)
Lemma Forall2_partner_l {A B} (R : A → B → Prop) l k x :
  Forall2 R l k → x ∈ l → ∃ y, y ∈ k ∧ R x y.
Proof.
  induction 1 as [|a b l k Hab _ IH]; [intros []%elem_of_nil|].
  intros [->|Hx]%elem_of_cons.
  - exists b. split; [left|done].
  - destruct (IH Hx) as (y & Hy & Hxy). exists y. split; [now right|done].
Qed.

Lemma Forall2_partner_r {A B} (R : A → B → Prop) l k y :
  Forall2 R l k → y ∈ k → ∃ x, x ∈ l ∧ R x y.
Proof.
  induction 1 as [|a b l k Hab _ IH]; [intros []%elem_of_nil|].
  intros [->|Hy]%elem_of_cons.
  - exists a. split; [left|done].
  - destruct (IH Hy) as (x & Hx & Hxy). exists x. split; [now right|done].
Qed.

(** ** The window of list_active *)

(** The three conditions of the filter, on a field that is absent, null, a
    string or an ObjectId. *)
Lemma holds_not_exists (field : option value) :
  Mongo.holds (Mongo.Exists_ false) field = true ↔ field = None.
Proof.
  cbn [Mongo.holds]. rewrite bool_decide_eq_true. split.
  - intros H. destruct field as [v|]; [|done].
    discriminate (proj1 H (mk_is_Some _ _ eq_refl)).
  - intros ->. split; [intros [? [=]]|discriminate].
Qed.

Lemma holds_lte_str (today : string) (field : option value) :
  Mongo.holds (Mongo.Lte_ (VStr today)) field = true ↔
  ∃ s, field = Some (VStr s) ∧ StrOrd.le s today.
Proof.
  cbn [Mongo.holds]. rewrite bool_decide_eq_true. split.
  - intros (_ & Hk & Hle). destruct field as [[|s|o]|]; try discriminate.
    eauto.
  - intros (s & -> & Hle). repeat split; eauto.
Qed.

Lemma holds_gte_str (today : string) (field : option value) :
  Mongo.holds (Mongo.Gte_ (VStr today)) field = true ↔
  ∃ e, field = Some (VStr e) ∧ StrOrd.le today e.
Proof.
  cbn [Mongo.holds]. rewrite bool_decide_eq_true. split.
  - intros (_ & Hk & Hle). destruct field as [[|s|o]|]; try discriminate.
    eauto.
  - intros (s & -> & Hle). repeat split; eauto.
Qed.

(** What the filter of list_active asks of a stored document. *)
Lemma active_on_spec (today : string) (a : document) :
  Mongo.matches (active_on today) a = true ↔
  (a !! "start_date" = None ∨
   ∃ s, a !! "start_date" = Some (VStr s) ∧ StrOrd.le s today) ∧
  (∃ e, a !! "expiration_date" = Some (VStr e) ∧ StrOrd.le today e).
Proof.
  unfold active_on. cbn [Mongo.matches forallb existsb].
  rewrite andb_true_r, orb_false_r, andb_true_iff, orb_true_iff.
  now rewrite holds_not_exists, holds_lte_str, holds_gte_str.
Qed.

(** A null start date is neither absent nor a string. *)
Lemma active_on_null (today : string) (a : document) :
  a !! "start_date" = Some VNull → Mongo.matches (active_on today) a = false.
Proof.
  intros Hnull. apply not_true_is_false. rewrite active_on_spec, Hnull.
  intros [[[=]|(s & [=] & _)] _].
Qed.

(** The records of a list_active response are the stored documents that pass
    the filter, with their identifier made a string. *)
Lemma get_active_elem (today : date) (db db' : database)
    (l : list document) (a' : document) :
  get_active_announcements today db = (Return l, db') →
  a' ∈ l ↔
  ∃ a, a ∈ announcements_collection db ∧ stringified a a' ∧
       Mongo.matches (active_on (date_isoformat today)) a = true.
Proof.
  unfold get_active_announcements. rewrite bind_run. cbn [announcements].
  intros [_ HF]%stringify_ids_Return. split.
  - intros Ha'. destruct (Forall2_partner_r _ _ _ _ HF Ha') as (a & Ha & Hs).
    apply SortFacts.sort_desc_elem, SortFacts.find_elem in Ha as [Ha Hm].
    exists a. repeat split; assumption.
  - intros (a & Ha & Hs & Hm).
    assert (a ∈ Mongo.sort_desc "created_at"
                  (Mongo.find (active_on (date_isoformat today))
                     (announcements_collection db))) as Hin.
    { apply SortFacts.sort_desc_elem, SortFacts.find_elem. done. }
    destruct (Forall2_partner_l _ _ _ _ HF Hin) as (b & Hb & Hsb).
    destruct Hs as (v & Hv & ->), Hsb as (w & Hw & ->). congruence.
Qed.

(** C1, where the code departs from it: create with the start date omitted
    stores a null start date, and list_active never returns a record with a
    null start date, whatever today is.  So the record that such a create
    returns is in no later list_active response, even on days up to its
    expiration date. *)
Theorem omitted_start_date_never_active
    (db db1 : database) (utcnow : datetime) (inserted_id : ObjectId)
    (message expiration_date : string) (username : option string)
    (r : document) :
  create_announcement utcnow inserted_id message expiration_date username
    None db = (Return r, db1) →
  r !! "start_date" = Some VNull ∧
  (∃ d, d ∈ announcements_collection db1 ∧ stringified d r) ∧
  ∀ today l db2,
    get_active_announcements today db1 = (Return l, db2) → r ∉ l.
Proof.
  rewrite create_run.
  destruct (known_user db username); [|discriminate].
  destruct (dates_ok expiration_date None); [|discriminate]. cbn [negb].
  destruct (Mongo.insert_one _ _ _) as [coll'|] eqn:Hi; [|discriminate].
  apply FrameFacts.insert_one_Some in Hi as [-> _]. intros [= <- <-].
  split; [reflexivity|]. split.
  - eexists. split.
    + cbn [announcements_collection]. apply elem_of_app. right. left.
    + exists (VObjectId inserted_id). split; [apply lookup_insert_eq|].
      now rewrite insert_insert_eq.
  - intros today l db2 Hl Hr.
    apply (get_active_elem _ _ _ _ _ Hl) in Hr as (a & _ & Hs & Hm).
    rewrite active_on_null in Hm; [discriminate|].
    now rewrite <- (stringified_other "start_date" a _ ltac:(done) Hs).
Qed.

Lemma omitted_start_date_never_active_witness :
  Spec.in_window (date_isoformat (mkDate 2024 5 15)) Sample.sports_day ∧
  ∀ l db2, get_active_announcements (mkDate 2024 5 15) Sample.two_db
           = (Return l, db2) → Sample.sports_day ∉ l.
Proof.
  split; [split; [exact I|reflexivity]|].
  apply (omitted_start_date_never_active Sample.exam_db Sample.two_db
           Sample.may_2nd_9am Sample.id2 "Sports day" "2024-06-30"
           (Some "jdoe") Sample.sports_day).
  reflexivity.
Defined.

(** The failing input of C1, run: on 2024-05-15 the announcement created
    without a start date and expiring on 2024-06-30 is missing from the
    list, which holds only the one created with a start date. *)
Example list_active_misses_open_ended :
  (λ d : document, d !! "message") <$> Sample.active_listing
  = [Some (VStr "Exam Friday")].
Proof. reflexivity. Qed.

(** ** Printed dates and times are ordered like the dates and times

    [created_at] holds [datetime.utcnow().isoformat()] and [today] is
    [date.today().isoformat()]; the store compares these strings.  On the
    printed form of dates and times in range the order of the strings is the
    order in time. *)

Module IsoOrder.

Lemma length_app (a b : string) :
  String.length (a +:+ b) = (String.length a + String.length b)%nat.
Proof. induction a as [|c a IH]; simpl; [done|]. now rewrite IH. Qed.

Lemma length_pad (w : nat) (n : Z) : String.length (pad w n) = w.
Proof.
  revert n. induction w as [|w IH]; intros n; simpl; [done|].
  rewrite length_app, IH. simpl. lia.
Qed.

(** Strings of equal length in front decide the comparison, unless equal. *)
Lemma compare_app_len (a1 a2 b1 b2 : string) :
  String.length a1 = String.length a2 →
  String.compare (a1 +:+ b1) (a2 +:+ b2) =
  match String.compare a1 a2 with
  | Eq => String.compare b1 b2
  | c => c
  end.
Proof.
  revert a2. induction a1 as [|c1 a1 IH]; intros [|c2 a2]; simpl;
    try discriminate; [done|].
  intros [= Hlen]. destruct (Ascii.compare c1 c2); auto.
Qed.

Lemma compare_digit (a b : Z) :
  Ascii.compare (digit_char a) (digit_char b) = (a mod 10 ?= b mod 10).
Proof.
  unfold Ascii.compare, digit_char.
  pose proof (Z.mod_pos_bound a 10 eq_refl).
  pose proof (Z.mod_pos_bound b 10 eq_refl).
  rewrite !N_ascii_embedding by lia.
  rewrite Z2N.inj_compare by lia. apply Z.add_compare_mono_l.
Qed.

(** Zero-padded numbers of one width compare as the numbers. *)
Lemma compare_pad (w : nat) (a b : Z) :
  0 ≤ a < 10 ^ Z.of_nat w → 0 ≤ b < 10 ^ Z.of_nat w →
  String.compare (pad w a) (pad w b) = (a ?= b).
Proof.
  revert a b. induction w as [|w IH]; intros a b Ha Hb.
  - simpl in *. symmetry. apply Z.compare_eq_iff. lia.
  - rewrite Nat2Z.inj_succ, Z.pow_succ_r in Ha, Hb by lia.
    cbn [pad]. rewrite compare_app_len by now rewrite !length_pad.
    rewrite IH by (split; [apply Z.div_pos|apply Z.div_lt_upper_bound]; lia).
    simpl. rewrite compare_digit.
    pose proof (Z.div_mod a 10 ltac:(lia)).
    pose proof (Z.div_mod b 10 ltac:(lia)).
    pose proof (Z.mod_pos_bound a 10 eq_refl).
    pose proof (Z.mod_pos_bound b 10 eq_refl).
    destruct (Z.compare_spec (a / 10) (b / 10)) as [Hq|Hq|Hq].
    + destruct (Z.compare_spec (a mod 10) (b mod 10)); symmetry;
        [apply Z.compare_eq_iff|apply Z.compare_lt_iff|apply Z.compare_gt_iff];
        lia.
    + symmetry. apply Z.compare_lt_iff. lia.
    + symmetry. apply Z.compare_gt_iff. lia.
Qed.

(** The fields of a date or time as [isoformat] can print them. *)
Definition printable_date (d : date) : Prop :=
  0 ≤ year d < 10000 ∧ 0 ≤ month d < 100 ∧ 0 ≤ day d < 100.

Definition printable (t : datetime) : Prop :=
  printable_date (dt_date t) ∧ 0 ≤ hour t < 100 ∧ 0 ≤ minute t < 100 ∧
  0 ≤ second t < 100 ∧ 0 ≤ microsecond t < 1000000.

Lemma valid_date_printable (d : date) : valid_date d = true → printable_date d.
Proof.
  unfold valid_date, printable_date, days_in_month.
  rewrite !andb_true_iff, !Z.leb_le.
  repeat case_match; lia.
Qed.

Lemma date_isoformat_compare (a b : date) :
  printable_date a → printable_date b →
  String.compare (date_isoformat a) (date_isoformat b) = date_compare a b.
Proof.
  intros (Hy & Hm & Hd) (Hy' & Hm' & Hd'). unfold date_isoformat, date_compare.
  rewrite compare_app_len, compare_pad by (rewrite ?length_pad; done).
  destruct (year a ?= year b); [|done|done].
  rewrite (compare_app_len "-" "-") by done. cbn [String.compare].
  rewrite StrOrd.ascii_compare_refl.
  rewrite compare_app_len, compare_pad by (rewrite ?length_pad; done).
  destruct (month a ?= month b); [|done|done].
  rewrite (compare_app_len "-" "-") by done. cbn [String.compare].
  rewrite StrOrd.ascii_compare_refl.
  now apply (compare_pad 2).
Qed.

(** On printed calendar days the order of the strings is the order of the
    days. *)
Lemma date_isoformat_le (a b : date) :
  printable_date a → printable_date b →
  StrOrd.le (date_isoformat a) (date_isoformat b) ↔ date_le a b.
Proof.
  intros Ha Hb. unfold StrOrd.le, String.leb, date_le.
  rewrite date_isoformat_compare by done.
  destruct (date_compare a b); split; congruence.
Qed.

(** The order of [datetime] values. *)
Definition datetime_compare (a b : datetime) : comparison :=
  match date_compare (dt_date a) (dt_date b) with
  | Eq => match hour a ?= hour b with
          | Eq => match minute a ?= minute b with
                  | Eq => match second a ?= second b with
                          | Eq => microsecond a ?= microsecond b
                          | c => c
                          end
                  | c => c
                  end
          | c => c
          end
  | c => c
  end.

(** The fraction that [datetime.isoformat] prints, absent for 0. *)
Lemma compare_fraction (a b : Z) :
  0 ≤ a < 1000000 → 0 ≤ b < 1000000 →
  String.compare (if a =? 0 then "" else "." +:+ pad 6 a)
                 (if b =? 0 then "" else "." +:+ pad 6 b) = (a ?= b).
Proof.
  intros Ha Hb.
  destruct (Z.eqb_spec a 0) as [->|Ha0], (Z.eqb_spec b 0) as [->|Hb0].
  - done.
  - transitivity Lt; [done|]. symmetry. apply Z.compare_lt_iff. lia.
  - transitivity Gt; [done|]. symmetry. apply Z.compare_gt_iff. lia.
  - rewrite (compare_app_len "." ".") by done. cbn [String.compare].
    rewrite StrOrd.ascii_compare_refl. now apply (compare_pad 6).
Qed.

Lemma length_date_isoformat (d : date) :
  String.length (date_isoformat d) = 10%nat.
Proof. unfold date_isoformat. now rewrite !length_app, !length_pad. Qed.

Lemma datetime_isoformat_compare (a b : datetime) :
  printable a → printable b →
  String.compare (datetime_isoformat a) (datetime_isoformat b)
  = datetime_compare a b.
Proof.
  intros (Hd & Hh & Hm & Hs & Hu) (Hd' & Hh' & Hm' & Hs' & Hu').
  unfold datetime_isoformat, datetime_compare.
  rewrite compare_app_len, date_isoformat_compare
    by (rewrite ?length_date_isoformat; done).
  destruct (date_compare (dt_date a) (dt_date b)); [|done|done].
  rewrite (compare_app_len "T" "T") by done. cbn [String.compare].
  rewrite StrOrd.ascii_compare_refl.
  rewrite compare_app_len, compare_pad by (rewrite ?length_pad; done).
  destruct (hour a ?= hour b); [|done|done].
  rewrite (compare_app_len ":" ":") by done. cbn [String.compare].
  rewrite StrOrd.ascii_compare_refl.
  rewrite compare_app_len, compare_pad by (rewrite ?length_pad; done).
  destruct (minute a ?= minute b); [|done|done].
  rewrite (compare_app_len ":" ":") by done. cbn [String.compare].
  rewrite StrOrd.ascii_compare_refl.
  rewrite compare_app_len, compare_pad by (rewrite ?length_pad; done).
  destruct (second a ?= second b); [|done|done].
  now apply compare_fraction.
Qed.

(** Of two records stamped by create, the one created later sorts first. *)
Lemma created_later_sorts_first (t1 t2 : datetime) (d1 d2 : document) :
  printable t1 → printable t2 →
  d1 !! "created_at" = Some (VStr (datetime_isoformat t1)) →
  d2 !! "created_at" = Some (VStr (datetime_isoformat t2)) →
  Mongo.descending "created_at" d1 d2 ↔ datetime_compare t2 t1 ≠ Gt.
Proof.
  intros H1 H2 E1 E2. unfold Mongo.descending, Mongo.le. rewrite E1, E2.
  cbn [Mongo.kind Mongo.payload]. unfold StrOrd.le, String.leb.
  rewrite datetime_isoformat_compare by done.
  destruct (datetime_compare t2 t1); split; intros H.
  - discriminate.
  - right. now split.
  - discriminate.
  - right. now split.
  - destruct H as [H|[_ H]]; [lia|discriminate].
  - now destruct H.
Qed.

End IsoOrder.

(** ** The store keeps its shape

    Every handler leaves a store in which each announcement has an ["_id"]
    and no two share one, if it found the store so; this is the unique index
    of the collection. *)

Definition store_ok (db : database) : Prop := unique_ids db ∧ has_ids db.

Abbreviation ids coll := ((λ d : document, d !! "_id") <$> coll).

Lemma known_user_spec (db : database) (username : option string) :
  known_user db username = true ↔
  ∃ u, username = Some u ∧ u ≠ "" ∧
       ∃ t, t ∈ teachers_collection db ∧ t !! "_id" = Some (VStr u).
Proof.
  unfold known_user. destruct username as [u|].
  - rewrite andb_true_iff, negb_true_iff, String.eqb_neq, existsb_exists.
    split.
    + intros (Hu & t & Ht%list_elem_of_In & Hid%bool_decide_eq_true). eauto 8.
    + intros (u' & [= <-] & Hu & t & Ht & Hid). split; [done|].
      exists t. now rewrite <- list_elem_of_In, bool_decide_eq_true.
  - split; [done|]. now intros (u & [=] & _).
Qed.

Lemma update_one_ids q upd coll :
  upd !! "_id" = None → ids (snd (Mongo.update_one q upd coll)) = ids coll.
Proof.
  intros Hupd. induction coll as [|d coll IH]; [done|]. cbn [Mongo.update_one].
  destruct (Mongo.matches q d).
  - cbn [snd]. rewrite !fmap_cons. f_equal. now apply lookup_union_r.
  - destruct (Mongo.update_one q upd coll) as [n r]. cbn [snd] in *.
    rewrite !fmap_cons. now f_equal.
Qed.

Lemma delete_one_ids q coll :
  ids (snd (Mongo.delete_one q coll)) `sublist_of` ids coll.
Proof.
  induction coll as [|d coll IH]; [constructor|]. cbn [Mongo.delete_one].
  destruct (Mongo.matches q d).
  - cbn [snd]. rewrite fmap_cons. now apply sublist_cons.
  - destruct (Mongo.delete_one q coll) as [n r]. cbn [snd] in *.
    rewrite !fmap_cons. now apply sublist_skip.
Qed.

Definition coll_ok (coll : list document) : Prop :=
  NoDup (ids coll) ∧ Forall is_Some (ids coll).

Lemma store_ok_coll (db : database) :
  store_ok db ↔ coll_ok (announcements_collection db).
Proof.
  unfold store_ok, coll_ok, unique_ids, has_ids. now rewrite Forall_fmap.
Qed.

Lemma insert_one_ok inserted_id doc coll coll' :
  coll_ok coll → Mongo.insert_one inserted_id doc coll = Some coll' →
  coll_ok coll'.
Proof.
  intros [Hnd Hall] [-> Hfresh]%FrameFacts.insert_one_Some. unfold coll_ok.
  rewrite fmap_app, NoDup_app, Forall_app. cbn [fmap list_fmap].
  rewrite lookup_insert_eq. repeat split; try done.
  - intros x (d & -> & Hd)%list_elem_of_fmap Hx%list_elem_of_singleton.
    now apply (Hfresh d Hd).
  - apply NoDup_singleton.
  - constructor; [eauto|constructor].
Qed.

Lemma update_one_ok q upd coll :
  upd !! "_id" = None → coll_ok coll →
  coll_ok (snd (Mongo.update_one q upd coll)).
Proof. intros Hupd. unfold coll_ok. now rewrite update_one_ids. Qed.

Lemma delete_one_ok q coll :
  coll_ok coll → coll_ok (snd (Mongo.delete_one q coll)).
Proof.
  intros [Hnd Hall]. pose proof (delete_one_ids q coll) as Hsub. split.
  - eapply sublist_NoDup; eauto.
  - rewrite Forall_forall in Hall |- *. intros x Hx. apply Hall.
    eapply elem_of_sublist; eauto.
Qed.

Lemma stringify_ids_db (l : list document) (db : database) :
  snd (stringify_ids l db) = db.
Proof.
  induction l as [|a l IH]; [done|]. cbn [stringify_ids].
  rewrite bind_run. unfold stringify_id at 1.
  destruct (a !! "_id"); [|done]. cbn [mret handler_ret].
  rewrite bind_run. destruct (stringify_ids l db) as [[r|e] db']; now subst.
Qed.

Lemma stringify_id_db (a : document) (db : database) :
  snd (stringify_id a db) = db.
Proof. unfold stringify_id. now destruct (a !! "_id"). Qed.

(** X18: the two listings change nothing: whatever list_active and list_all
    return or raise, the database after the call is the database before. *)
Lemma listings_read_only (db : database) (today : date)
    (username : option string) :
  snd (get_active_announcements today db) = db ∧
  snd (get_all_announcements username db) = db.
Proof.
  split.
  - unfold get_active_announcements. rewrite bind_run.
    apply stringify_ids_db.
  - rewrite get_all_run. destruct (known_user db username); [|done].
    apply stringify_ids_db.
Qed.

(** X19: create, update and delete keep the shape of the store: if every
    announcement has an identifier and no two share one before the call, the
    same holds after it, whatever the arguments and the outcome. *)
Lemma handlers_keep_store_ok
    (db : database) (utcnow : datetime) (inserted_id : ObjectId)
    (announcement_id message expiration_date : string)
    (username start_date : option string) :
  store_ok db →
  store_ok (snd (create_announcement utcnow inserted_id message
                   expiration_date username start_date db)) ∧
  store_ok (snd (update_announcement utcnow announcement_id message
                   expiration_date username start_date db)) ∧
  store_ok (snd (delete_announcement announcement_id username db)).
Proof.
  intros Hok. pose proof (proj1 (store_ok_coll db) Hok) as Hcoll.
  rewrite create_run, update_run, delete_run.
  destruct (known_user db username); [|done]. cbn [negb].
  split; [|split].
  - destruct (dates_ok expiration_date start_date); [|done]. cbn [negb].
    destruct (Mongo.insert_one _ _ _) as [coll'|] eqn:Hi; [|done].
    apply store_ok_coll. cbn [snd announcements_collection].
    eapply insert_one_ok; eauto.
  - destruct (dates_ok expiration_date start_date); [|done]. cbn [negb].
    destruct (ObjectId_of_str announcement_id) as [obj_id|]; [|done].
    cbn zeta. destruct (_ =? _)%nat; [|destruct (Mongo.find_one _ _)];
      rewrite ?stringify_id_db; apply store_ok_coll;
      cbn [snd announcements_collection]; now apply update_one_ok.
  - destruct (ObjectId_of_str announcement_id) as [obj_id|]; [|done].
    cbn zeta. destruct (_ =? _)%nat; apply store_ok_coll;
      cbn [snd announcements_collection]; now apply delete_one_ok.
Qed.

(** ** A start date with a time of day

    Validation compares calendar days, the store compares the strings.  A
    start date on the expiration day that carries a time of day passes
    validation, but as a string it is after the expiration date, and after
    today on that day: the record is stored and that day's list is empty. *)
Example start_with_time_of_day :
  let run := create_announcement Sample.may_1st_9am Sample.id1 "Exam Friday"
               "2024-06-01" (Some "jdoe") (Some "2024-06-01T10:00:00")
               Sample.empty_db in
  dates_ok "2024-06-01" (Some "2024-06-01T10:00:00") = true ∧
  length (announcements_collection (snd run)) = 1%nat ∧
  String.leb "2024-06-01T10:00:00" "2024-06-01" = false ∧
  fst (get_active_announcements (mkDate 2024 6 1) (snd run)) = Return [].
Proof. repeat split; reflexivity. Qed.

(** * Further properties of the handlers *)

(** ** The first match of a filter *)

Module FirstMatch.
Import Mongo.

(** A collection in which [d] is the first document that matches [q]. *)
Definition first_at (q : filter_doc) (l1 : list document) (d : document)
    (l2 coll : list document) : Prop :=
  coll = l1 ++ d :: l2 ∧
  Forall (λ x, matches q x = false) l1 ∧ matches q d = true.

Lemma split_first (q : filter_doc) (coll : list document) :
  (∀ d, d ∈ coll → matches q d = false) ∨
  ∃ l1 d l2, first_at q l1 d l2 coll.
Proof.
  induction coll as [|a coll IH].
  - left. intros d Hd. now apply elem_of_nil in Hd.
  - destruct (matches q a) eqn:Ha.
    + right. exists [], a, coll. repeat split; [constructor|done].
    + destruct IH as [Hnone|(l1 & d & l2 & -> & Hl1 & Hd)].
      * left. intros d [->|Hd]%elem_of_cons; auto.
      * right. exists (a :: l1), d, l2. repeat split; [|done].
        now constructor.
Qed.

Lemma find_one_at q l1 d l2 coll :
  first_at q l1 d l2 coll → find_one q coll = Some d.
Proof.
  intros (-> & Hl1 & Hd). unfold find_one.
  induction Hl1 as [|a l1 Ha _ IH]; cbn [app List.find].
  - now rewrite Hd.
  - now rewrite Ha.
Qed.

Lemma update_one_at q upd l1 d l2 coll :
  first_at q l1 d l2 coll →
  update_one q upd coll = (1%nat, l1 ++ (upd ∪ d) :: l2).
Proof.
  intros (-> & Hl1 & Hd).
  induction Hl1 as [|a l1 Ha _ IH]; cbn [app update_one].
  - now rewrite Hd.
  - now rewrite Ha, IH.
Qed.

Lemma delete_one_at q l1 d l2 coll :
  first_at q l1 d l2 coll → delete_one q coll = (1%nat, l1 ++ l2).
Proof.
  intros (-> & Hl1 & Hd).
  induction Hl1 as [|a l1 Ha _ IH]; cbn [app delete_one].
  - now rewrite Hd.
  - now rewrite Ha, IH.
Qed.

(** Setting fields other than ["_id"] keeps a document under its key. *)
Lemma matches_by_id_union obj_id (upd d : document) :
  upd !! "_id" = None →
  matches (by_id obj_id) (upd ∪ d) = matches (by_id obj_id) d.
Proof.
  intros Hupd. unfold by_id. rewrite !MongoFacts.matches_id by discriminate.
  now rewrite lookup_union_r.
Qed.

Lemma first_at_update obj_id upd l1 d l2 coll :
  upd !! "_id" = None →
  first_at (by_id obj_id) l1 d l2 coll →
  first_at (by_id obj_id) l1 (upd ∪ d) l2 (l1 ++ (upd ∪ d) :: l2).
Proof.
  intros Hupd (_ & Hl1 & Hd). repeat split; [done|].
  now rewrite matches_by_id_union.
Qed.

(** A new key goes last, and is the first (and only) match of its filter. *)
Lemma first_at_fresh obj_id (d : document) coll :
  (∀ x, x ∈ coll → ¬ is_id obj_id x) → is_id obj_id d →
  first_at (by_id obj_id) coll d [] (coll ++ [d]).
Proof.
  intros Hfresh Hd. repeat split.
  - apply Forall_forall. intros x Hx. specialize (Hfresh x Hx).
    rewrite <- MongoFacts.matches_is_id in Hfresh.
    now destruct (matches (by_id obj_id) x).
  - now apply MongoFacts.matches_is_id.
Qed.

End FirstMatch.

(** ** The outcome of each mutating handler *)

Section Outcomes.
Variable db : database.
Variables (utcnow : datetime) (inserted_id : ObjectId).
Variables (announcement_id message expiration_date : string).
Variables (username start_date : option string).

Let coll := announcements_collection db.
Let update_data :=
  new_update_data utcnow message expiration_date username start_date.

(** Update, with the branches that cannot be taken removed: when the record
    is found, it is found again after [update_one] and has its ["_id"]. *)
Lemma update_outcome :
  update_announcement utcnow announcement_id message expiration_date username
    start_date db =
  if negb (known_user db username) then (Raise (unauthenticated username), db)
  else if negb (dates_ok expiration_date start_date) then
    (Raise (invalid_dates expiration_date start_date), db)
  else
    match ObjectId_of_str announcement_id with
    | None => (Raise (HTTPException 400 "Invalid announcement ID"), db)
    | Some obj_id =>
        match Mongo.find_one (by_id obj_id) coll with
        | None => (Raise (HTTPException 404 "Announcement not found"), db)
        | Some d =>
            (Return (<["_id" := VStr (binary obj_id)]> (update_data ∪ d)),
             mkDatabase (snd (Mongo.update_one (by_id obj_id) update_data coll))
               (teachers_collection db))
        end
    end.
Proof.
  rewrite update_run. subst coll update_data.
  destruct (known_user db username); [|done].
  destruct (dates_ok expiration_date start_date); [|done]. cbn [negb].
  destruct (ObjectId_of_str announcement_id) as [obj_id|]; [|done]. cbn zeta.
  destruct (FirstMatch.split_first (by_id obj_id) (announcements_collection db))
    as [Hnone|(l1 & d & l2 & Hat)].
  - rewrite MongoFacts.update_one_none by done.
    rewrite (proj2 (MongoFacts.find_one_None _ _) Hnone).
    cbn [fst snd Nat.eqb]. now rewrite set_announcements_same.
  - rewrite (FirstMatch.find_one_at _ _ _ _ _ Hat).
    rewrite (FirstMatch.update_one_at _ _ _ _ _ _ Hat). cbn [fst snd Nat.eqb].
    pose proof (proj2 (proj2 (new_update_data_keeps utcnow message
                                expiration_date username start_date))) as Hupd.
    rewrite (FirstMatch.find_one_at _ _ _ _ _
               (FirstMatch.first_at_update _ _ _ _ _ _ Hupd Hat)).
    destruct Hat as (_ & _ & Hd%MongoFacts.matches_is_id).
    unfold stringify_id. rewrite lookup_union_r by done. now rewrite Hd.
Qed.

Lemma delete_outcome :
  delete_announcement announcement_id username db =
  if negb (known_user db username) then (Raise (unauthenticated username), db)
  else
    match ObjectId_of_str announcement_id with
    | None => (Raise (HTTPException 400 "Invalid announcement ID"), db)
    | Some obj_id =>
        match Mongo.find_one (by_id obj_id) coll with
        | None => (Raise (HTTPException 404 "Announcement not found"), db)
        | Some d =>
            (Return {[ "message" := VStr "Announcement deleted successfully" ]},
             mkDatabase (snd (Mongo.delete_one (by_id obj_id) coll))
               (teachers_collection db))
        end
    end.
Proof.
  rewrite delete_run. subst coll.
  destruct (known_user db username); [|done]. cbn [negb].
  destruct (ObjectId_of_str announcement_id) as [obj_id|]; [|done]. cbn zeta.
  destruct (FirstMatch.split_first (by_id obj_id) (announcements_collection db))
    as [Hnone|(l1 & d & l2 & Hat)].
  - rewrite MongoFacts.delete_one_none by done.
    rewrite (proj2 (MongoFacts.find_one_None _ _) Hnone).
    cbn [fst snd Nat.eqb]. now rewrite set_announcements_same.
  - rewrite (FirstMatch.find_one_at _ _ _ _ _ Hat).
    now rewrite (FirstMatch.delete_one_at _ _ _ _ _ Hat).
Qed.

End Outcomes.

Lemma find_one_first q coll d :
  Mongo.find_one q coll = Some d → ∃ l1 l2, FirstMatch.first_at q l1 d l2 coll.
Proof.
  intros Hf. destruct (FirstMatch.split_first q coll)
    as [Hnone|(l1 & d' & l2 & Hat)].
  - apply MongoFacts.find_one_None in Hnone. congruence.
  - rewrite (FirstMatch.find_one_at _ _ _ _ _ Hat) in Hf.
    injection Hf as <-. eauto.
Qed.

(** ** Delete *)

(** X1: a successful delete takes out exactly the first stored record with
    the given identifier: the records before and after it stay, in order, and
    the teachers are not touched. *)
Theorem delete_removes_first_match
    (db db' : database) (announcement_id : string) (username : option string)
    (r : document) :
  delete_announcement announcement_id username db = (Return r, db') →
  ∃ obj_id l1 d l2,
    ObjectId_of_str announcement_id = Some obj_id ∧
    announcements_collection db = l1 ++ d :: l2 ∧
    is_id obj_id d ∧ Forall (λ x, ¬ is_id obj_id x) l1 ∧
    announcements_collection db' = l1 ++ l2 ∧
    teachers_collection db' = teachers_collection db.
Proof.
  rewrite delete_outcome.
  destruct (known_user db username); [|discriminate]. cbn [negb].
  destruct (ObjectId_of_str announcement_id) as [obj_id|]; [|discriminate].
  destruct (Mongo.find_one _ _) as [d|] eqn:Hf; [|discriminate].
  apply find_one_first in Hf as (l1 & l2 & Hat). intros [= _ <-].
  rewrite (FirstMatch.delete_one_at _ _ _ _ _ Hat).
  destruct Hat as (Hcoll & Hl1 & Hd%MongoFacts.matches_is_id).
  exists obj_id, l1, d, l2. repeat split; try done.
  eapply Forall_impl; [exact Hl1|]. intros x Hx Hid%MongoFacts.matches_is_id.
  congruence.
Qed.

Lemma delete_removes_first_match_witness :
  ∃ obj_id l1 d l2,
    ObjectId_of_str "665f1a2b3c4d5e6f70819203" = Some obj_id ∧
    announcements_collection Sample.two_db = l1 ++ d :: l2 ∧
    is_id obj_id d ∧ Forall (λ x, ¬ is_id obj_id x) l1 ∧
    announcements_collection
      (snd (delete_announcement "665f1a2b3c4d5e6f70819203" (Some "jdoe")
              Sample.two_db)) = l1 ++ l2 ∧
    teachers_collection
      (snd (delete_announcement "665f1a2b3c4d5e6f70819203" (Some "jdoe")
              Sample.two_db)) = teachers_collection Sample.two_db.
Proof.
  apply (delete_removes_first_match Sample.two_db _
           "665f1a2b3c4d5e6f70819203" (Some "jdoe")
           {[ "message" := VStr "Announcement deleted successfully" ]}).
  reflexivity.
Defined.

(** X2: for a known caller, delete with a malformed identifier fails with
    400, and delete with a well-formed identifier that no stored record has
    fails with 404; in both cases the database is left as it was. *)
Theorem delete_missing_or_malformed
    (db : database) (announcement_id : string) (username : option string) :
  known_user db username = true →
  (ObjectId_of_str announcement_id = None →
   delete_announcement announcement_id username db
   = (Raise (HTTPException 400 "Invalid announcement ID"), db)) ∧
  (∀ obj_id, ObjectId_of_str announcement_id = Some obj_id →
     (∀ d, d ∈ announcements_collection db → ¬ is_id obj_id d) →
     delete_announcement announcement_id username db
     = (Raise (HTTPException 404 "Announcement not found"), db)).
Proof.
  intros Hk. rewrite delete_outcome, Hk. cbn [negb]. split.
  - now intros ->.
  - intros obj_id -> Hnone.
    rewrite (proj2 (MongoFacts.find_one_None (by_id obj_id) _)); [done|].
    intros d Hd. specialize (Hnone d Hd).
    rewrite <- MongoFacts.matches_is_id in Hnone.
    now destruct (Mongo.matches (by_id obj_id) d).
Qed.

Lemma delete_missing_or_malformed_witness :
  delete_announcement "12345" (Some "jdoe") Sample.two_db
  = (Raise (HTTPException 400 "Invalid announcement ID"), Sample.two_db).
Proof.
  apply (delete_missing_or_malformed Sample.two_db "12345" (Some "jdoe"));
    reflexivity.
Defined.

(** ** Failures *)

(** X3: a call of create, update or delete that raises, whatever it raises,
    leaves the database exactly as it was. *)
Theorem failure_leaves_database
    (db db' : database) (utcnow : datetime) (inserted_id : ObjectId)
    (announcement_id message expiration_date : string)
    (username start_date : option string) (e : exn) :
  (create_announcement utcnow inserted_id message expiration_date username
     start_date db = (Raise e, db') → db' = db) ∧
  (update_announcement utcnow announcement_id message expiration_date username
     start_date db = (Raise e, db') → db' = db) ∧
  (delete_announcement announcement_id username db = (Raise e, db') →
   db' = db).
Proof.
  rewrite create_run, update_outcome, delete_outcome.
  destruct (known_user db username); cbn [negb];
    [|repeat split; now intros [= _ <-]].
  repeat split.
  - destruct (dates_ok expiration_date start_date); cbn [negb];
      [|now intros [= _ <-]].
    destruct (Mongo.insert_one _ _ _); [discriminate|now intros [= _ <-]].
  - destruct (dates_ok expiration_date start_date); cbn [negb];
      [|now intros [= _ <-]].
    destruct (ObjectId_of_str announcement_id); [|now intros [= _ <-]].
    destruct (Mongo.find_one _ _); [discriminate|now intros [= _ <-]].
  - destruct (ObjectId_of_str announcement_id); [|now intros [= _ <-]].
    destruct (Mongo.find_one _ _); [discriminate|now intros [= _ <-]].
Qed.

Lemma failure_leaves_database_witness :
  snd (update_announcement Sample.may_2nd_9am "665f1a2b3c4d5e6f70819203"
         "Exam Monday" "2024-06-03" (Some "jdoe") (Some "2024-06-04")
         Sample.two_db) = Sample.two_db.
Proof.
  apply (proj1 (proj2 (failure_leaves_database Sample.two_db _
                         Sample.may_2nd_9am Sample.id2
                         "665f1a2b3c4d5e6f70819203" "Exam Monday" "2024-06-03"
                         (Some "jdoe") (Some "2024-06-04")
                         (HTTPException 400
                            "Start date must be before expiration date")))).
  reflexivity.
Defined.

(** X4: the only exceptions update and delete raise are HTTP errors with
    status 401, 400 or 404; create raises those with 401 or 400, or the
    store's duplicate-key error, and the latter only when a stored record
    already has the generated identifier.  In particular the lookups after a
    successful [update_one] never fail. *)
Theorem only_http_errors
    (db db' : database) (utcnow : datetime) (inserted_id : ObjectId)
    (announcement_id message expiration_date : string)
    (username start_date : option string) (e : exn) :
  (create_announcement utcnow inserted_id message expiration_date username
     start_date db = (Raise e, db') →
   (∃ detail, e = HTTPException 401 detail ∨ e = HTTPException 400 detail) ∨
   (e = DuplicateKeyError ∧
    ∃ d, d ∈ announcements_collection db ∧ is_id inserted_id d)) ∧
  (update_announcement utcnow announcement_id message expiration_date username
     start_date db = (Raise e, db') →
   ∃ detail, e = HTTPException 401 detail ∨ e = HTTPException 400 detail ∨
             e = HTTPException 404 detail) ∧
  (delete_announcement announcement_id username db = (Raise e, db') →
   ∃ detail, e = HTTPException 401 detail ∨ e = HTTPException 400 detail ∨
             e = HTTPException 404 detail).
Proof.
  rewrite create_run, update_outcome, delete_outcome.
  unfold unauthenticated, invalid_dates.
  destruct (known_user db username); cbn [negb];
    [|repeat split; intros [= <- _]; eauto 6].
  repeat split.
  - destruct (dates_ok expiration_date start_date); cbn [negb];
      [|intros [= <- _]; eauto 6].
    unfold Mongo.insert_one.
    destruct (Mongo.find_one _ _) as [d|] eqn:Hf; [|discriminate].
    intros [= <- _]. right. split; [done|].
    apply find_one_first in Hf as (l1 & l2 & -> & _ & Hd).
    exists d. split; [|now apply MongoFacts.matches_is_id].
    apply elem_of_app. right. left.
  - destruct (dates_ok expiration_date start_date); cbn [negb];
      [|intros [= <- _]; eauto 6].
    destruct (ObjectId_of_str announcement_id); [|intros [= <- _]; eauto 6].
    destruct (Mongo.find_one _ _); [discriminate|intros [= <- _]; eauto 6].
  - destruct (ObjectId_of_str announcement_id); [|intros [= <- _]; eauto 6].
    destruct (Mongo.find_one _ _); [discriminate|intros [= <- _]; eauto 6].
Qed.

Lemma only_http_errors_witness :
  (∃ detail, DuplicateKeyError = HTTPException 401 detail ∨
             DuplicateKeyError = HTTPException 400 detail) ∨
  (DuplicateKeyError = DuplicateKeyError ∧
   ∃ d, d ∈ announcements_collection Sample.two_db ∧ is_id Sample.id2 d).
Proof.
  apply (proj1 (only_http_errors Sample.two_db Sample.two_db
                  Sample.may_2nd_9am Sample.id2 "" "Sports day" "2024-06-30"
                  (Some "jdoe") None DuplicateKeyError)).
  reflexivity.
Defined.

(** ** Update *)

(** The fields that update leaves to the stored record. *)
Definition kept_by_update (key : string) : Prop :=
  key ∉ ["_id"; "message"; "start_date"; "expiration_date"; "updated_by";
         "updated_at"].

Lemma new_update_data_other utcnow message expiration_date username
    start_date key :
  kept_by_update key →
  new_update_data utcnow message expiration_date username start_date !! key
  = None.
Proof.
  unfold kept_by_update. rewrite !not_elem_of_cons.
  intros (_ & H1 & H2 & H3 & H4 & H5 & _). unfold new_update_data.
  rewrite !lookup_insert_ne by done. now apply lookup_singleton_ne.
Qed.

Lemma update_Return db db' utcnow announcement_id message expiration_date
    username start_date r :
  update_announcement utcnow announcement_id message expiration_date username
    start_date db = (Return r, db') →
  let update_data :=
    new_update_data utcnow message expiration_date username start_date in
  known_user db username = true ∧
  dates_ok expiration_date start_date = true ∧
  ∃ obj_id l1 d l2,
    ObjectId_of_str announcement_id = Some obj_id ∧
    FirstMatch.first_at (by_id obj_id) l1 d l2 (announcements_collection db) ∧
    r = <["_id" := VStr (binary obj_id)]> (update_data ∪ d) ∧
    db' = mkDatabase (l1 ++ (update_data ∪ d) :: l2) (teachers_collection db).
Proof.
  rewrite update_outcome.
  destruct (known_user db username); [|discriminate].
  destruct (dates_ok expiration_date start_date); [|discriminate].
  cbn [negb].
  destruct (ObjectId_of_str announcement_id) as [obj_id|]; [|discriminate].
  destruct (Mongo.find_one _ _) as [d|] eqn:Hf; [|discriminate].
  apply find_one_first in Hf as (l1 & l2 & Hat). intros [= <- <-].
  rewrite (FirstMatch.update_one_at _ _ _ _ _ _ Hat).
  repeat split. now exists obj_id, l1, d, l2.
Qed.

(** X5: the record that a successful update returns has the identifier as a
    string, carries the message and the two dates as sent, is stamped with
    the caller and the time of the update, and has every other field of the
    stored record it replaces (created_by and created_at among them). *)
Theorem update_response
    (db db' : database) (utcnow : datetime)
    (announcement_id message expiration_date : string)
    (username start_date : option string) (r : document) :
  update_announcement utcnow announcement_id message expiration_date username
    start_date db = (Return r, db') →
  ∃ obj_id d,
    ObjectId_of_str announcement_id = Some obj_id ∧
    d ∈ announcements_collection db ∧ is_id obj_id d ∧
    r !! "_id" = Some (VStr (binary obj_id)) ∧
    r !! "message" = Some (VStr message) ∧
    r !! "start_date" = Some (to_value start_date) ∧
    r !! "expiration_date" = Some (VStr expiration_date) ∧
    r !! "updated_by" = Some (to_value username) ∧
    r !! "updated_at" = Some (VStr (datetime_isoformat utcnow)) ∧
    ∀ key, kept_by_update key → r !! key = d !! key.
Proof.
  intros (_ & _ & obj_id & l1 & d & l2 & Hid & Hat & -> & _)%update_Return.
  destruct Hat as (Hcoll & _ & Hd%MongoFacts.matches_is_id).
  exists obj_id, d. split; [done|]. split.
  { rewrite Hcoll. apply elem_of_app. right. left. }
  split; [done|]. split; [apply lookup_insert_eq|].
  rewrite !lookup_insert_ne by done.
  repeat split; try (now apply lookup_union_Some_l).
  intros key Hkey.
  assert (key ≠ "_id") as Hne.
  { intros ->. apply Hkey. left. }
  rewrite lookup_insert_ne by done. apply lookup_union_r.
  now apply new_update_data_other.
Qed.

Lemma update_response_witness :
  ∃ obj_id d,
    ObjectId_of_str "665F1A2B3C4D5E6F70819203" = Some obj_id ∧
    d ∈ announcements_collection Sample.two_db ∧ is_id obj_id d ∧
    Sample.returned ∅ Sample.exam_moved !! "_id"
    = Some (VStr (binary obj_id)) ∧
    Sample.returned ∅ Sample.exam_moved !! "message"
    = Some (VStr "Exam Monday") ∧
    Sample.returned ∅ Sample.exam_moved !! "start_date"
    = Some (to_value None) ∧
    Sample.returned ∅ Sample.exam_moved !! "expiration_date"
    = Some (VStr "2024-06-03") ∧
    Sample.returned ∅ Sample.exam_moved !! "updated_by"
    = Some (to_value (Some "jdoe")) ∧
    Sample.returned ∅ Sample.exam_moved !! "updated_at"
    = Some (VStr (datetime_isoformat Sample.may_2nd_9am)) ∧
    ∀ key, kept_by_update key →
           Sample.returned ∅ Sample.exam_moved !! key = d !! key.
Proof.
  apply (update_response Sample.two_db (snd Sample.exam_moved)
           Sample.may_2nd_9am "665F1A2B3C4D5E6F70819203" "Exam Monday"
           "2024-06-03" (Some "jdoe") None).
  reflexivity.
Defined.

(** The keys of the dict that update sets do not depend on its arguments. *)
Lemma new_update_data_None utcnow message expiration_date username start_date
    key :
  new_update_data utcnow message expiration_date username start_date !! key
  = None ↔
  key ∉ ["message"; "start_date"; "expiration_date"; "updated_by";
         "updated_at"].
Proof.
  split.
  - intros Hnone Hin. rewrite !elem_of_cons in Hin.
    destruct Hin as [->|[->|[->|[->|[->|Hin]]]]]; try discriminate Hnone.
    now apply elem_of_nil in Hin.
  - rewrite !not_elem_of_cons. intros (H1 & H2 & H3 & H4 & H5 & _).
    unfold new_update_data.
    rewrite !lookup_insert_ne by done. now apply lookup_singleton_ne.
Qed.

(** What an update sets hides what an earlier update set. *)
Lemma update_data_covers t1 m1 e1 u1 s1 t2 m2 e2 u2 s2 (d : document) :
  new_update_data t2 m2 e2 u2 s2 ∪ (new_update_data t1 m1 e1 u1 s1 ∪ d)
  = new_update_data t2 m2 e2 u2 s2 ∪ d.
Proof.
  apply map_eq. intros key.
  destruct (new_update_data t2 m2 e2 u2 s2 !! key) as [v|] eqn:E2.
  - transitivity (Some v); [|symmetry]; now apply lookup_union_Some_l.
  - rewrite !lookup_union_r; try done.
    apply new_update_data_None. now apply new_update_data_None in E2.
Qed.

(** X6: an update overwrites an earlier update of the same record
    completely.  After a successful update, a further update with the same
    identifier, whatever its other arguments, its caller and the time it
    runs at, returns the record and leaves the store that it would have
    returned and left without the earlier update. *)
Theorem update_overwrites_update
    (db db1 db2 : database) (announcement_id : string)
    (t1 : datetime) (m1 e1 : string) (u1 s1 : option string)
    (t2 : datetime) (m2 e2 : string) (u2 s2 : option string)
    (r1 r2 : document) :
  update_announcement t1 announcement_id m1 e1 u1 s1 db = (Return r1, db1) →
  update_announcement t2 announcement_id m2 e2 u2 s2 db = (Return r2, db2) →
  update_announcement t2 announcement_id m2 e2 u2 s2 db1 = (Return r2, db2).
Proof.
  intros (_ & _ & obj_id & l1 & d & l2 & Hid & Hat & _ & ->)%update_Return.
  pose proof (proj2 (proj2 (new_update_data_keeps t1 m1 e1 u1 s1))) as Hupd.
  pose proof (FirstMatch.first_at_update _ _ _ _ _ _ Hupd Hat) as Hat1.
  rewrite !update_outcome.
  cbn [announcements_collection teachers_collection].
  rewrite (known_user_same_teachers db (mkDatabase _ _)) by done.
  destruct (known_user db u2); [|discriminate].
  destruct (dates_ok e2 s2); [|discriminate]. cbn [negb]. rewrite Hid.
  rewrite (FirstMatch.find_one_at _ _ _ _ _ Hat).
  rewrite (FirstMatch.find_one_at _ _ _ _ _ Hat1).
  rewrite (FirstMatch.update_one_at _ _ _ _ _ _ Hat).
  rewrite (FirstMatch.update_one_at _ _ _ _ _ _ Hat1). cbn [snd].
  now rewrite update_data_covers.
Qed.

(** The update of [Sample.exam_moved] again, a day later. *)
Definition may_3rd_9am : datetime := mkDatetime (mkDate 2024 5 3) 9 0 0 0.

Lemma update_overwrites_update_witness :
  update_announcement may_3rd_9am "665f1a2b3c4d5e6f70819203" "Exam Monday"
    "2024-06-03" (Some "jdoe") None (snd Sample.exam_moved)
  = update_announcement may_3rd_9am "665f1a2b3c4d5e6f70819203" "Exam Monday"
      "2024-06-03" (Some "jdoe") None Sample.two_db ∧
  Sample.returned ∅
    (update_announcement may_3rd_9am "665f1a2b3c4d5e6f70819203" "Exam Monday"
       "2024-06-03" (Some "jdoe") None Sample.two_db) !! "updated_at"
  = Some (VStr "2024-05-03T09:00:00").
Proof.
  split; [|reflexivity].
  rewrite (update_overwrites_update Sample.two_db (snd Sample.exam_moved)
             (snd (update_announcement may_3rd_9am "665f1a2b3c4d5e6f70819203"
                     "Exam Monday" "2024-06-03" (Some "jdoe") None
                     Sample.two_db))
             "665f1a2b3c4d5e6f70819203"
             Sample.may_2nd_9am "Exam Monday" "2024-06-03" (Some "jdoe") None
             may_3rd_9am "Exam Monday" "2024-06-03" (Some "jdoe") None
             (Sample.returned ∅ Sample.exam_moved)
             (Sample.returned ∅
                (update_announcement may_3rd_9am "665f1a2b3c4d5e6f70819203"
                   "Exam Monday" "2024-06-03" (Some "jdoe") None
                   Sample.two_db)));
    reflexivity.
Defined.

(** X7: update writes the start date it is given, and a start date that is
    omitted is written as null; the record an update without a start date
    returns is in no later list_active response, whatever the day. *)
Theorem update_without_start_date_never_active
    (db db1 : database) (utcnow : datetime)
    (announcement_id message expiration_date : string)
    (username : option string) (r : document) :
  update_announcement utcnow announcement_id message expiration_date username
    None db = (Return r, db1) →
  r !! "start_date" = Some VNull ∧
  ∀ today l db2,
    get_active_announcements today db1 = (Return l, db2) → r ∉ l.
Proof.
  intros (_ & _ & obj_id & l1 & d & l2 & _ & _ & -> & _)%update_Return.
  assert ((<["_id" := VStr (binary obj_id)]>
             (new_update_data utcnow message expiration_date username None
              ∪ d) : document) !! "start_date" = Some VNull) as Hnull.
  { rewrite lookup_insert_ne by done. now apply lookup_union_Some_l. }
  split; [exact Hnull|]. intros today l db2 Hl Hr.
  apply (get_active_elem _ _ _ _ _ Hl) in Hr as (a & _ & Hs & Hm).
  rewrite active_on_null in Hm; [discriminate|].
  now rewrite <- (stringified_other "start_date" a _ ltac:(done) Hs).
Qed.

Lemma update_without_start_date_never_active_witness :
  Sample.returned ∅ Sample.exam_moved !! "start_date" = Some VNull ∧
  ∀ today l db2,
    get_active_announcements today (snd Sample.exam_moved) = (Return l, db2) →
    Sample.returned ∅ Sample.exam_moved ∉ l.
Proof.
  apply (update_without_start_date_never_active Sample.two_db _
           Sample.may_2nd_9am "665f1a2b3c4d5e6f70819203" "Exam Monday"
           "2024-06-03" (Some "jdoe")).
  reflexivity.
Defined.

(** ** Create *)

Lemma create_Return db db' utcnow inserted_id message expiration_date
    username start_date r :
  create_announcement utcnow inserted_id message expiration_date username
    start_date db = (Return r, db') →
  let announcement :=
    new_announcement utcnow message expiration_date username start_date in
  known_user db username = true ∧
  dates_ok expiration_date start_date = true ∧
  (∀ d, d ∈ announcements_collection db → ¬ is_id inserted_id d) ∧
  r = <["_id" := VStr (binary inserted_id)]> announcement ∧
  db' = mkDatabase
          (announcements_collection db
           ++ [<["_id" := VObjectId inserted_id]> announcement])
          (teachers_collection db).
Proof.
  rewrite create_run.
  destruct (known_user db username); [|discriminate].
  destruct (dates_ok expiration_date start_date); [|discriminate].
  cbn [negb].
  destruct (Mongo.insert_one _ _ _) as [coll'|] eqn:Hi; [|discriminate].
  apply FrameFacts.insert_one_Some in Hi as [-> Hfresh].
  now intros [= <- <-].
Qed.

(** Create goes through exactly when the caller is known, the dates pass
    validation and the generated identifier is not taken. *)
Lemma create_succeeds db utcnow inserted_id message expiration_date username
    start_date :
  known_user db username = true →
  dates_ok expiration_date start_date = true →
  (∀ d, d ∈ announcements_collection db → ¬ is_id inserted_id d) →
  ∃ r db', create_announcement utcnow inserted_id message expiration_date
             username start_date db = (Return r, db').
Proof.
  intros Hk Hv Hfresh. rewrite create_run, Hk, Hv. cbn [negb].
  unfold Mongo.insert_one.
  rewrite (proj2 (MongoFacts.find_one_None (by_id inserted_id) _)); [eauto|].
  intros d Hd. specialize (Hfresh d Hd).
  rewrite <- MongoFacts.matches_is_id in Hfresh.
  now destruct (Mongo.matches (by_id inserted_id) d).
Qed.

(** The fields create writes. *)
Definition written_by_create (key : string) : Prop :=
  key ∈ ["_id"; "message"; "start_date"; "expiration_date"; "created_by";
         "created_at"].

(** X8: a successful create adds one record at the end of the collection and
    touches nothing else.  The stored record is the returned one with the
    identifier as an ObjectId instead of a string; it holds the message and
    dates as sent, the caller as created_by, the time of the call as
    created_at, and no other field (no updated_by, no updated_at). *)
Theorem create_appends_record
    (db db' : database) (utcnow : datetime) (inserted_id : ObjectId)
    (message expiration_date : string) (username start_date : option string)
    (r : document) :
  create_announcement utcnow inserted_id message expiration_date username
    start_date db = (Return r, db') →
  announcements_collection db'
  = announcements_collection db ++ [<["_id" := VObjectId inserted_id]> r] ∧
  teachers_collection db' = teachers_collection db ∧
  r !! "_id" = Some (VStr (binary inserted_id)) ∧
  r !! "message" = Some (VStr message) ∧
  r !! "start_date" = Some (to_value start_date) ∧
  r !! "expiration_date" = Some (VStr expiration_date) ∧
  r !! "created_by" = Some (to_value username) ∧
  r !! "created_at" = Some (VStr (datetime_isoformat utcnow)) ∧
  ∀ key, ¬ written_by_create key → r !! key = None.
Proof.
  intros (_ & _ & _ & -> & ->)%create_Return.
  cbn [announcements_collection teachers_collection].
  rewrite insert_insert_eq. repeat split.
  intros key Hkey. unfold written_by_create in Hkey.
  rewrite !not_elem_of_cons in Hkey.
  destruct Hkey as (H0 & H1 & H2 & H3 & H4 & H5 & _).
  unfold new_announcement.
  rewrite !lookup_insert_ne by done. now apply lookup_singleton_ne.
Qed.

Lemma create_appends_record_witness :
  announcements_collection Sample.two_db
  = announcements_collection Sample.exam_db
    ++ [<["_id" := VObjectId Sample.id2]> Sample.sports_day] ∧
  teachers_collection Sample.two_db = teachers_collection Sample.exam_db ∧
  Sample.sports_day !! "_id" = Some (VStr (binary Sample.id2)) ∧
  Sample.sports_day !! "message" = Some (VStr "Sports day") ∧
  Sample.sports_day !! "start_date" = Some (to_value None) ∧
  Sample.sports_day !! "expiration_date" = Some (VStr "2024-06-30") ∧
  Sample.sports_day !! "created_by" = Some (to_value (Some "jdoe")) ∧
  Sample.sports_day !! "created_at"
  = Some (VStr (datetime_isoformat Sample.may_2nd_9am)) ∧
  ∀ key, ¬ written_by_create key → Sample.sports_day !! key = None.
Proof.
  apply (create_appends_record Sample.exam_db Sample.two_db
           Sample.may_2nd_9am Sample.id2 "Sports day" "2024-06-30"
           (Some "jdoe") None).
  reflexivity.
Defined.

(** X9: create and delete undo each other.  When create returned a record,
    delete called by the same caller with the identifier of that record (a
    well-formed ObjectId, as the driver generates them) succeeds and leaves
    the database exactly as it was before the create. *)
Theorem create_then_delete_restores
    (db db1 : database) (utcnow : datetime) (inserted_id : ObjectId)
    (message expiration_date : string) (username start_date : option string)
    (r : document) :
  ObjectId_of_str (binary inserted_id) = Some inserted_id →
  create_announcement utcnow inserted_id message expiration_date username
    start_date db = (Return r, db1) →
  r !! "_id" = Some (VStr (binary inserted_id)) ∧
  delete_announcement (binary inserted_id) username db1
  = (Return {[ "message" := VStr "Announcement deleted successfully" ]}, db).
Proof.
  intros Hwf (Hk & _ & Hfresh & -> & ->)%create_Return.
  split; [apply lookup_insert_eq|].
  rewrite delete_outcome. cbn [announcements_collection teachers_collection].
  rewrite (known_user_same_teachers db) by done. rewrite Hk, Hwf. cbn [negb].
  assert (FirstMatch.first_at (by_id inserted_id) (announcements_collection db)
            (<["_id" := VObjectId inserted_id]>
               (new_announcement utcnow message expiration_date username
                  start_date)) []
            (announcements_collection db
             ++ [<["_id" := VObjectId inserted_id]>
                   (new_announcement utcnow message expiration_date username
                      start_date)])) as Hat.
  { apply FirstMatch.first_at_fresh; [done|]. apply lookup_insert_eq. }
  rewrite (FirstMatch.find_one_at _ _ _ _ _ Hat).
  rewrite (FirstMatch.delete_one_at _ _ _ _ _ Hat). cbn [snd].
  rewrite app_nil_r. now rewrite set_announcements_same.
Qed.

Lemma create_then_delete_restores_witness :
  Sample.sports_day !! "_id" = Some (VStr (binary Sample.id2)) ∧
  delete_announcement (binary Sample.id2) (Some "jdoe") Sample.two_db
  = (Return {[ "message" := VStr "Announcement deleted successfully" ]},
     Sample.exam_db).
Proof.
  apply (create_then_delete_restores Sample.exam_db Sample.two_db
           Sample.may_2nd_9am Sample.id2 "Sports day" "2024-06-30"
           (Some "jdoe") None Sample.sports_day); reflexivity.
Defined.

Lemma date_compare_refl (d : date) : date_compare d d = Eq.
Proof. unfold date_compare. now rewrite !Z.compare_refl. Qed.

(** X10: the comparison of the two dates is strict: a known caller who sends
    the same readable date as start and as expiration date, with an
    identifier that is not taken, gets the record created. *)
Theorem start_equal_expiration_accepted
    (db : database) (utcnow : datetime) (inserted_id : ObjectId)
    (message date_string : string) (username : option string) (d : date) :
  known_user db username = true →
  parse_date date_string = Some d →
  (∀ x, x ∈ announcements_collection db → ¬ is_id inserted_id x) →
  ∃ r db',
    create_announcement utcnow inserted_id message date_string username
      (Some date_string) db = (Return r, db') ∧
    r !! "start_date" = r !! "expiration_date".
Proof.
  intros Hk Hd Hfresh.
  destruct (create_succeeds db utcnow inserted_id message date_string username
              (Some date_string) Hk) as (r & db' & Hrun); [|done|].
  - unfold dates_ok, date_gtb. rewrite Hd, date_compare_refl.
    now rewrite orb_true_r.
  - exists r, db'. split; [done|].
    apply create_Return in Hrun as (_ & _ & _ & -> & _). reflexivity.
Qed.

Lemma start_equal_expiration_accepted_witness :
  ∃ r db',
    create_announcement Sample.may_2nd_9am Sample.id2 "Sports day"
      "2024-06-30" (Some "jdoe") (Some "2024-06-30") Sample.exam_db
    = (Return r, db') ∧
    r !! "start_date" = r !! "expiration_date".
Proof.
  apply (start_equal_expiration_accepted Sample.exam_db Sample.may_2nd_9am
           Sample.id2 "Sports day" "2024-06-30" (Some "jdoe")
           (mkDate 2024 6 30)); [reflexivity|reflexivity|].
  intros x Hx Hid%MongoFacts.matches_is_id.
  assert (Mongo.find_one (by_id Sample.id2)
            (announcements_collection Sample.exam_db) = None) as Hnone
    by reflexivity.
  rewrite MongoFacts.find_one_None in Hnone. specialize (Hnone x Hx).
  congruence.
Defined.

(** ** Listings *)

Lemma find_all (coll : list document) : Mongo.find (Mongo.All_ []) coll = coll.
Proof.
  unfold Mongo.find. induction coll as [|a coll IH]; [done|].
  change (a :: List.filter (Mongo.matches (Mongo.All_ [])) coll = a :: coll).
  now rewrite IH.
Qed.

Lemma stringified_fun (a r r' : document) :
  stringified a r → stringified a r' → r = r'.
Proof. intros (v & Hv & ->) (w & Hw & ->). congruence. Qed.

Lemma get_all_Return db db' username l :
  get_all_announcements username db = (Return l, db') →
  known_user db username = true ∧ db' = db ∧
  Forall2 stringified
    (Mongo.sort_desc "created_at" (announcements_collection db)) l.
Proof.
  rewrite get_all_run, find_all.
  destruct (known_user db username); [|discriminate]. cbn [negb].
  intros [-> HF]%stringify_ids_Return. done.
Qed.

Lemma get_active_Return db db' today l :
  get_active_announcements today db = (Return l, db') →
  db' = db ∧
  Forall2 stringified
    (Mongo.sort_desc "created_at"
       (Mongo.find (active_on (date_isoformat today))
          (announcements_collection db))) l.
Proof.
  unfold get_active_announcements. rewrite bind_run. cbn [announcements].
  now intros [-> HF]%stringify_ids_Return.
Qed.

(** X11: list_active returns exactly the stored records, identifier made a
    string, whose start_date field is absent or a string at most today's
    ISO date, and whose expiration_date is a string at least today's ISO
    date, strings being compared byte by byte.  A start date that is null
    keeps a record out. *)
Theorem list_active_members
    (db db' : database) (today : date) (l : list document) (r : document) :
  get_active_announcements today db = (Return l, db') →
  r ∈ l ↔
  ∃ a, a ∈ announcements_collection db ∧ stringified a r ∧
       (a !! "start_date" = None ∨
        ∃ s, a !! "start_date" = Some (VStr s) ∧
             StrOrd.le s (date_isoformat today)) ∧
       (∃ e, a !! "expiration_date" = Some (VStr e) ∧
             StrOrd.le (date_isoformat today) e).
Proof.
  intros Hl. rewrite (get_active_elem _ _ _ _ _ Hl).
  split; intros (a & Ha & Hs & Hm); exists a; (split; [done|split; [done|]]).
  - now apply active_on_spec.
  - now apply active_on_spec.
Qed.

Lemma list_active_members_witness :
  Sample.sports_day ∈ Sample.active_listing ↔
  ∃ a, a ∈ announcements_collection Sample.two_db ∧
       stringified a Sample.sports_day ∧
       (a !! "start_date" = None ∨
        ∃ s, a !! "start_date" = Some (VStr s) ∧
             StrOrd.le s (date_isoformat (mkDate 2024 5 15))) ∧
       (∃ e, a !! "expiration_date" = Some (VStr e) ∧
             StrOrd.le (date_isoformat (mkDate 2024 5 15)) e).
Proof.
  apply (list_active_members Sample.two_db Sample.two_db (mkDate 2024 5 15)).
  reflexivity.
Defined.

Lemma new_announcement_dates utcnow message expiration_date username
    start_date :
  new_announcement utcnow message expiration_date username start_date
    !! "start_date" = Some (to_value start_date) ∧
  new_announcement utcnow message expiration_date username start_date
    !! "expiration_date" = Some (VStr expiration_date).
Proof. split; reflexivity. Qed.

(** X12: an announcement created with a start and an expiration date given
    as plain calendar days (YYYY-MM-DD) is in the list_active response of a
    day exactly when that day is neither before the start day nor after the
    expiration day; both ends of the window are included. *)
Theorem created_record_active_window
    (db db1 db2 : database) (utcnow : datetime) (inserted_id : ObjectId)
    (message : string) (username : option string)
    (start_day expiration_day today : date)
    (r : document) (l : list document) :
  valid_date start_day = true → valid_date expiration_day = true →
  valid_date today = true →
  create_announcement utcnow inserted_id message
    (date_isoformat expiration_day) username
    (Some (date_isoformat start_day)) db = (Return r, db1) →
  get_active_announcements today db1 = (Return l, db2) →
  r ∈ l ↔ date_le start_day today ∧ date_le today expiration_day.
Proof.
  intros Hs%IsoOrder.valid_date_printable He%IsoOrder.valid_date_printable
    Ht%IsoOrder.valid_date_printable
    (_ & _ & _ & -> & ->)%create_Return Hl.
  rewrite <- !IsoOrder.date_isoformat_le by done.
  rewrite (get_active_elem _ _ _ _ _ Hl).
  destruct (new_announcement_dates utcnow message
              (date_isoformat expiration_day) username
              (Some (date_isoformat start_day))) as [Es Ee].
  cbn [to_value] in Es. split.
  - intros (a & _ & Hst & Hm). apply active_on_spec in Hm.
    pose proof (stringified_other "start_date" a _ ltac:(done) Hst) as E1.
    pose proof (stringified_other "expiration_date" a _ ltac:(done) Hst) as E2.
    rewrite lookup_insert_ne in E1, E2 by done.
    rewrite <- E1, <- E2, Es, Ee in Hm.
    now destruct Hm as [[[=]|(s & [= <-] & Hle)] (e & [= <-] & Hge)].
  - intros [Hle Hge]. eexists. split; [|split].
    + cbn [announcements_collection]. apply elem_of_app. right. left.
    + exists (VObjectId inserted_id). split; [apply lookup_insert_eq|].
      now rewrite insert_insert_eq.
    + apply active_on_spec. rewrite !lookup_insert_ne, Es, Ee by done. split.
      * right. eexists. split; [reflexivity|done].
      * eexists. split; [reflexivity|done].
Qed.

(** The record created in [Sample.exam_db], as returned. *)
Definition exam_friday : document :=
  <["_id" := VStr (binary Sample.id1)]>
    (new_announcement Sample.may_1st_9am "Exam Friday" "2024-06-01"
       (Some "jdoe") (Some "2024-05-01")).

Lemma created_record_active_window_witness :
  exam_friday ∈ Sample.returned []
                  (get_active_announcements (mkDate 2024 6 1) Sample.exam_db)
  ↔ date_le (mkDate 2024 5 1) (mkDate 2024 6 1) ∧
    date_le (mkDate 2024 6 1) (mkDate 2024 6 1).
Proof.
  apply (created_record_active_window Sample.empty_db Sample.exam_db
           Sample.exam_db Sample.may_1st_9am Sample.id1 "Exam Friday"
           (Some "jdoe") (mkDate 2024 5 1) (mkDate 2024 6 1)
           (mkDate 2024 6 1)); reflexivity.
Defined.

(** X13: list_all loses no record and invents none: its response is the
    whole collection, reordered, each record with its identifier made a
    string and nothing else changed. *)
Theorem list_all_complete
    (db db' : database) (username : option string) (l : list document) :
  get_all_announcements username db = (Return l, db') →
  ∃ l0, l0 ≡ₚ announcements_collection db ∧ Forall2 stringified l0 l.
Proof.
  intros (_ & _ & HF)%get_all_Return. eexists. split; [|exact HF].
  apply merge_sort_Permutation.
Qed.

Lemma list_all_complete_witness :
  ∃ l0, l0 ≡ₚ announcements_collection Sample.two_db ∧
        Forall2 stringified l0 Sample.full_listing.
Proof.
  apply (list_all_complete Sample.two_db Sample.two_db (Some "jdoe")).
  reflexivity.
Defined.

(** X14: on one database, every record of a list_active response is also in
    the list_all response of a known caller. *)
Theorem active_listed_in_all
    (db db1 db2 : database) (today : date) (username : option string)
    (active all : list document) :
  get_active_announcements today db = (Return active, db1) →
  get_all_announcements username db = (Return all, db2) →
  active ⊆ all.
Proof.
  intros Hactive (_ & _ & HF)%get_all_Return r Hr.
  apply (get_active_elem _ _ _ _ _ Hactive) in Hr as (a & Ha & Hs & _).
  apply (SortFacts.sort_desc_elem "created_at") in Ha.
  destruct (Forall2_partner_l _ _ _ _ HF Ha) as (r' & Hr' & Hs').
  now rewrite (stringified_fun _ _ _ Hs Hs').
Qed.

Lemma active_listed_in_all_witness :
  Sample.active_listing ⊆ Sample.full_listing.
Proof.
  apply (active_listed_in_all Sample.two_db Sample.two_db Sample.two_db
           (mkDate 2024 5 15) (Some "jdoe")); reflexivity.
Defined.

(** After a successful create on a store whose documents all have an
    identifier, list_all goes through on the sorted new collection. *)
Lemma list_all_after_create
    (db db1 : database) (utcnow : datetime) (inserted_id : ObjectId)
    (message expiration_date : string) (username start_date : option string)
    (r : document) :
  has_ids db →
  create_announcement utcnow inserted_id message expiration_date username
    start_date db = (Return r, db1) →
  let stored := <["_id" := VObjectId inserted_id]> r in
  stringified stored r ∧
  stored !! "created_at" = Some (VStr (datetime_isoformat utcnow)) ∧
  ∃ l, get_all_announcements username db1 = (Return l, db1) ∧
       Forall2 stringified
         (Mongo.sort_desc "created_at"
            (announcements_collection db ++ [stored])) l.
Proof.
  intros Hids (Hk & _ & _ & -> & ->)%create_Return. cbn zeta.
  rewrite insert_insert_eq.
  set (stored := <["_id" := VObjectId inserted_id]>
                   (new_announcement utcnow message expiration_date username
                      start_date)).
  set (db1 := mkDatabase (announcements_collection db ++ [stored])
                (teachers_collection db)).
  split.
  { exists (VObjectId inserted_id). unfold stored.
    split; [apply lookup_insert_eq|]. now rewrite insert_insert_eq. }
  split; [unfold stored; now rewrite lookup_insert_ne|].
  destruct (stringify_ids_total
              (Mongo.sort_desc "created_at" (announcements_collection db1))
              db1) as [l Hl].
  { apply Forall_forall. intros d [Hd|Hd%list_elem_of_singleton]
      %SortFacts.sort_desc_elem%elem_of_app.
    - unfold has_ids in Hids. rewrite Forall_forall in Hids. auto.
    - subst d. unfold stored. rewrite lookup_insert_eq. eauto. }
  exists l. rewrite get_all_run, find_all.
  rewrite (known_user_same_teachers db db1) by done. rewrite Hk. cbn [negb].
  split; [exact Hl|]. now apply stringify_ids_Return in Hl as [_ HF].
Qed.

(** X15: create and list_all fit together: on a store whose documents all
    have an identifier, after a successful create the caller's list_all
    succeeds, holds the record that create returned, and is one longer than
    the collection was. *)
Theorem create_then_list_all
    (db db1 : database) (utcnow : datetime) (inserted_id : ObjectId)
    (message expiration_date : string) (username start_date : option string)
    (r : document) :
  has_ids db →
  create_announcement utcnow inserted_id message expiration_date username
    start_date db = (Return r, db1) →
  ∃ l, get_all_announcements username db1 = (Return l, db1) ∧
       r ∈ l ∧
       length l = S (length (announcements_collection db)).
Proof.
  intros Hids Hrun.
  destruct (list_all_after_create _ _ _ _ _ _ _ _ _ Hids Hrun)
    as (Hs & _ & l & Hl & HF).
  exists l. split; [exact Hl|]. split.
  - assert (<["_id" := VObjectId inserted_id]> r
            ∈ Mongo.sort_desc "created_at"
                (announcements_collection db
                 ++ [<["_id" := VObjectId inserted_id]> r])) as Hin.
    { apply SortFacts.sort_desc_elem, elem_of_app. right. left. }
    destruct (Forall2_partner_l _ _ _ _ HF Hin) as (r' & Hr' & Hs').
    now rewrite (stringified_fun _ _ _ Hs Hs').
  - rewrite <- (Forall2_length _ _ _ HF). unfold Mongo.sort_desc.
    rewrite merge_sort_Permutation, length_app. cbn. lia.
Qed.

Lemma create_then_list_all_witness :
  ∃ l, get_all_announcements (Some "jdoe") Sample.two_db
       = (Return l, Sample.two_db) ∧
       Sample.sports_day ∈ l ∧
       length l = S (length (announcements_collection Sample.exam_db)).
Proof.
  apply (create_then_list_all Sample.exam_db Sample.two_db Sample.may_2nd_9am
           Sample.id2 "Sports day" "2024-06-30" (Some "jdoe") None
           Sample.sports_day).
  - apply (bool_decide_unpack (has_ids Sample.exam_db)). vm_compute. exact I.
  - reflexivity.
Defined.

(** X16: newest first, for the newest: when the stamp of a create call is
    after the created_at of every stored record, in the order the store
    sorts by, the record that create returned is the first of the caller's
    next list_all response. *)
Theorem newest_listed_first
    (db db1 : database) (utcnow : datetime) (inserted_id : ObjectId)
    (message expiration_date : string) (username start_date : option string)
    (r : document) :
  has_ids db →
  Forall (λ d : document,
            ¬ Mongo.le (Some (VStr (datetime_isoformat utcnow)))
                (d !! "created_at"))
    (announcements_collection db) →
  create_announcement utcnow inserted_id message expiration_date username
    start_date db = (Return r, db1) →
  ∃ l, get_all_announcements username db1 = (Return (r :: l), db1).
Proof.
  intros Hids Hnew Hrun.
  destruct (list_all_after_create _ _ _ _ _ _ _ _ _ Hids Hrun)
    as (Hs & Hstamp & l & Hl & HF).
  set (stored := <["_id" := VObjectId inserted_id]> r) in *.
  pose proof (SortFacts.sort_desc_sorted "created_at"
                (announcements_collection db ++ [stored])) as Hsorted.
  assert (stored ∈ Mongo.sort_desc "created_at"
                     (announcements_collection db ++ [stored])) as Hin.
  { apply SortFacts.sort_desc_elem, elem_of_app. right. left. }
  destruct (Mongo.sort_desc "created_at"
              (announcements_collection db ++ [stored]))
    as [|h t] eqn:Hsort; [now apply elem_of_nil in Hin|].
  assert (h = stored) as ->.
  { apply elem_of_cons in Hin as [->|Hin]; [done|].
    apply StronglySorted_cons in Hsorted as [Hall _].
    rewrite Forall_forall in Hall. specialize (Hall _ Hin).
    unfold Mongo.descending in Hall. rewrite Hstamp in Hall.
    assert (h ∈ announcements_collection db ++ [stored]) as Hh.
    { apply (SortFacts.sort_desc_elem "created_at"). rewrite Hsort. left. }
    apply elem_of_app in Hh as [Hh|Hh%list_elem_of_singleton]; [|done].
    rewrite Forall_forall in Hnew. now destruct (Hnew h Hh). }
  apply Forall2_cons_inv_l in HF as (r' & l' & Hs' & _ & ->).
  rewrite (stringified_fun _ _ _ Hs Hs'). eauto.
Qed.

Lemma newest_listed_first_witness :
  ∃ l, get_all_announcements (Some "jdoe") Sample.two_db
       = (Return (Sample.sports_day :: l), Sample.two_db).
Proof.
  apply (newest_listed_first Sample.exam_db Sample.two_db Sample.may_2nd_9am
           Sample.id2 "Sports day" "2024-06-30" (Some "jdoe") None
           Sample.sports_day).
  - apply (bool_decide_unpack (has_ids Sample.exam_db)). vm_compute. exact I.
  - repeat constructor. intros [H|[_ H]]; vm_compute in H; discriminate.
  - reflexivity.
Defined.

(** ** Who may call *)

(** X17: the handlers check that the caller is a known user and nothing
    more: delete and list_all give the same result for any two known
    callers, and update succeeds for one exactly when it succeeds for the
    other, whoever created the record. *)
Theorem any_known_user_may_edit
    (db : database) (utcnow : datetime)
    (announcement_id message expiration_date : string)
    (start_date : option string) (u1 u2 : option string) :
  known_user db u1 = true → known_user db u2 = true →
  delete_announcement announcement_id u1 db
  = delete_announcement announcement_id u2 db ∧
  get_all_announcements u1 db = get_all_announcements u2 db ∧
  ((∃ r db', update_announcement utcnow announcement_id message
               expiration_date u1 start_date db = (Return r, db')) ↔
   (∃ r db', update_announcement utcnow announcement_id message
               expiration_date u2 start_date db = (Return r, db'))).
Proof.
  intros H1 H2. rewrite !delete_outcome, !get_all_run, !update_outcome.
  rewrite H1, H2. cbn [negb]. split; [done|]. split; [done|].
  destruct (dates_ok expiration_date start_date); cbn [negb].
  2:{ split; intros (r & db' & [=]). }
  destruct (ObjectId_of_str announcement_id).
  2:{ split; intros (r & db' & [=]). }
  destruct (Mongo.find_one _ _); [split; eauto|].
  split; intros (r & db' & [=]).
Qed.

Lemma any_known_user_may_edit_witness :
  delete_announcement "665f1a2b3c4d5e6f70819203" (Some "jdoe")
    (mkDatabase (announcements_collection Sample.two_db)
       [Sample.jdoe; {[ "_id" := VStr "asmith" ]}])
  = delete_announcement "665f1a2b3c4d5e6f70819203" (Some "asmith")
      (mkDatabase (announcements_collection Sample.two_db)
         [Sample.jdoe; {[ "_id" := VStr "asmith" ]}]).
Proof.
  apply (any_known_user_may_edit
           (mkDatabase (announcements_collection Sample.two_db)
              [Sample.jdoe; {[ "_id" := VStr "asmith" ]}])
           Sample.may_2nd_9am "665f1a2b3c4d5e6f70819203" "" "" None
           (Some "jdoe") (Some "asmith")); reflexivity.
Defined.

Lemma handlers_keep_store_ok_witness :
  store_ok Sample.two_db.
Proof.
  apply (handlers_keep_store_ok Sample.exam_db Sample.may_2nd_9am Sample.id2
           "" "Sports day" "2024-06-30" (Some "jdoe") None).
  split.
  - apply (bool_decide_unpack (unique_ids Sample.exam_db)).
    vm_compute. exact I.
  - apply (bool_decide_unpack (has_ids Sample.exam_db)). vm_compute. exact I.
Defined.

(** X20: no handler writes to the teachers: after any of the five calls,
    whatever it returned or raised, the teachers collection is as before. *)
Theorem teachers_never_written
    (db : database) (today : date) (utcnow : datetime)
    (inserted_id : ObjectId)
    (announcement_id message expiration_date : string)
    (username start_date : option string) :
  teachers_collection (snd (get_active_announcements today db))
  = teachers_collection db ∧
  teachers_collection (snd (get_all_announcements username db))
  = teachers_collection db ∧
  teachers_collection
    (snd (create_announcement utcnow inserted_id message expiration_date
            username start_date db)) = teachers_collection db ∧
  teachers_collection
    (snd (update_announcement utcnow announcement_id message expiration_date
            username start_date db)) = teachers_collection db ∧
  teachers_collection (snd (delete_announcement announcement_id username db))
  = teachers_collection db.
Proof.
  split.
  { unfold get_active_announcements. rewrite bind_run. cbn [announcements].
    now rewrite stringify_ids_db. }
  rewrite get_all_run, create_run, update_outcome, delete_outcome.
  destruct (known_user db username); [|done]. cbn [negb].
  split; [now rewrite stringify_ids_db|]. split; [|split].
  - destruct (dates_ok expiration_date start_date); [|done]. cbn [negb].
    now destruct (Mongo.insert_one _ _ _).
  - destruct (dates_ok expiration_date start_date); [|done]. cbn [negb].
    destruct (ObjectId_of_str announcement_id); [|done].
    now destruct (Mongo.find_one _ _).
  - destruct (ObjectId_of_str announcement_id); [|done].
    now destruct (Mongo.find_one _ _).
Qed.
